(** * Cart, totals, order assembly and delivery intervals of the shop demo

    A shallow embedding of
    - the cart slice (reducers and selectors of [CartSlice]),
    - the total shown by [TotalAmount],
    - the order lines assembled by the payment page ([productsInOrder]),
    - the interval filter of [CalendarForm] ([filterIntervalsByDate]).

    JavaScript numbers are embedded as [Z]: identifiers, quantities, unit
    counts, prices (in minor units) and epoch milliseconds are integers in
    every run the statements below talk about.  A property that may be
    [undefined] is an [option]; optional chaining [a?.b] is [fmap] or [JS.chain]
    on [option]; [||] and [??] are written out below with JavaScript's
    truthiness of numbers (0 is falsy). *)

From Stdlib Require Import ZArith List Bool Lia.
From stdpp Require Import base option list strings.

Open Scope Z_scope.

(** ** JavaScript operators on possibly undefined numbers and booleans *)

Module JS.

Definition truthy (v : option Z) : bool :=
  match v with
  | Some n => negb (n =? 0)
  | None => false
  end.

(** [a || b], both possibly undefined. *)
Definition or (a b : option Z) : option Z :=
  if truthy a then a else b.

(** [a || b] with [b] a number. *)
Definition or_num (a : option Z) (b : Z) : Z :=
  match a with
  | Some n => if n =? 0 then b else n
  | None => b
  end.

(** [a ?? b] with [b] a number. *)
Definition nullish_num (a : option Z) (b : Z) : Z :=
  match a with
  | Some n => n
  | None => b
  end.

(** [a || b] on booleans, [a] possibly undefined. *)
Definition or_bool (a : option bool) (b : bool) : bool :=
  match a with
  | Some true => true
  | _ => b
  end.

(** [a ?? b] on booleans, [a] possibly undefined. *)
Definition nullish_bool (a : option bool) (b : bool) : bool :=
  match a with
  | Some v => v
  | None => b
  end.

(** Optional chaining [o?.f] for a property [f] that may itself be missing. *)
Definition chain {A B : Type} (f : A -> option B) (o : option A) : option B :=
  match o with
  | Some a => f a
  | None => None
  end.

(** [Array.prototype.findIndex]; [None] stands for -1. *)
Fixpoint findIndex {A : Type} (f : A -> bool) (l : list A) : option nat :=
  match l with
  | [] => None
  | x :: l' => if f x then Some O else S <$> findIndex f l'
  end.

(** [Array.prototype.some]. *)
Definition some {A : Type} (f : A -> bool) (l : list A) : bool := existsb f l.

End JS.

(** ** Data of the cart slice *)

(** A cart line, [IProducts]: [{ id, quantity, selected }]. *)
Module IProducts.
Record t : Type := mk { id : Z; quantity : Z; selected : bool }.
End IProducts.

(** The attribute values the cart reads from a product entity:
    [attributeValues.sale.value], [.price.value], [.units_product.value]. *)
Module AttributeValues.
Record t : Type := mk {
  sale : option Z;
  price : option Z;
  units_product : option Z
}.
End AttributeValues.

(** A product entity of the catalogue, [IProductsEntity], restricted to the
    fields the cart reads.  Every field may be missing: the slice starts with
    [delivery: {} as IProductsEntity]. *)
Module IProductsEntity.
Record t : Type := mk {
  id : option Z;
  statusIdentifier : option string;
  price : option Z;
  attributeValues : option AttributeValues.t
}.
(** The object [{}]. *)
Definition empty : t := mk None None None None.
(** [e.attributeValues?.sale?.value] and its siblings. *)
Definition sale_value (e : t) : option Z :=
  JS.chain AttributeValues.sale (attributeValues e).
Definition price_value (e : t) : option Z :=
  JS.chain AttributeValues.price (attributeValues e).
Definition units_product_value (e : t) : option Z :=
  JS.chain AttributeValues.units_product (attributeValues e).
End IProductsEntity.

Module DeliveryData.
Record t : Type := mk {
  date : Z;
  time : string;
  address : string;
  interval : option (list Z)
}.
End DeliveryData.

Record InitialStateType : Type := mkState {
  products : list IProductsEntity.t;
  productsData : list IProducts.t;
  currency : option string;
  delivery : IProductsEntity.t;
  deliveryData : DeliveryData.t;
  transitionId : Z;
  total : Z;
  version : Z
}.

(** [initialState]; [now] is the value of [new Date().getTime()] when the
    module is loaded. *)
Definition initialState (now : Z) : InitialStateType :=
  {| products := [];
     productsData := [];
     currency := None;
     delivery := IProductsEntity.empty;
     deliveryData := DeliveryData.mk now EmptyString EmptyString (Some []);
     transitionId := 0;
     total := 0;
     version := 0 |}.

Definition set_productsData (l : list IProducts.t) (s : InitialStateType)
  : InitialStateType :=
  {| products := products s;
     productsData := l;
     currency := currency s;
     delivery := delivery s;
     deliveryData := deliveryData s;
     transitionId := transitionId s;
     total := total s;
     version := version s |}.

Definition set_products (l : list IProductsEntity.t) (s : InitialStateType)
  : InitialStateType :=
  {| products := l;
     productsData := productsData s;
     currency := currency s;
     delivery := delivery s;
     deliveryData := deliveryData s;
     transitionId := transitionId s;
     total := total s;
     version := version s |}.

Definition set_deliveryData (d : DeliveryData.t) (s : InitialStateType)
  : InitialStateType :=
  {| products := products s;
     productsData := productsData s;
     currency := currency s;
     delivery := delivery s;
     deliveryData := d;
     transitionId := transitionId s;
     total := total s;
     version := version s |}.

(** ** Reducers on the list of cart lines *)

Module Lines.

Definition has_id (i : Z) (p : IProducts.t) : bool := IProducts.id p =? i.

(** The object written back at [index] by the update branches:
    [{ id: l[index]?.id || pid, selected: sel, quantity: qty }]. *)
Definition rewritten (l : list IProducts.t) (index : nat) (pid : Z)
    (sel : bool) (qty : Z) : IProducts.t :=
  IProducts.mk (JS.or_num (IProducts.id <$> l !! index) pid) qty sel.

Definition addProductToCart (pid : Z) (sel : bool) (qty : Z)
    (l : list IProducts.t) : list IProducts.t :=
  match JS.findIndex (has_id pid) l with
  | None => l ++ [IProducts.mk pid (Z.max 1 qty) sel]
  | Some index =>
      <[index :=
          rewritten l index pid
            (JS.nullish_bool (IProducts.selected <$> l !! index) true)
            (Z.max 1 (JS.or_num (IProducts.quantity <$> l !! index) 0 + qty))]> l
  end.

Definition increaseProductQty (units pid qty : Z) (l : list IProducts.t)
  : list IProducts.t :=
  match JS.findIndex (has_id pid) l with
  | None => l ++ [IProducts.mk pid 1 true]
  | Some index =>
      let qty' := JS.or_num (IProducts.quantity <$> l !! index) 0 + qty in
      let clampedQty := Z.min qty' units in
      <[index :=
          rewritten l index pid
            (JS.or_bool (IProducts.selected <$> l !! index) true)
            clampedQty]> l
  end.

Definition decreaseProductQty (pid qty : Z) (l : list IProducts.t)
  : list IProducts.t :=
  match JS.findIndex (has_id pid) l with
  | None => l
  | Some index =>
      let qty' := JS.or_num (IProducts.quantity <$> l !! index) 0 - qty in
      if qty' <=? 0 then List.filter (fun item => negb (has_id pid item)) l
      else
        <[index :=
            rewritten l index pid
              (JS.nullish_bool (IProducts.selected <$> l !! index) true)
              qty']> l
  end.

Definition setProductQty (units pid qty : Z) (l : list IProducts.t)
  : list IProducts.t :=
  let index := JS.findIndex (has_id pid) l in
  if qty <=? 0 then List.filter (fun item => negb (has_id pid item)) l
  else
    let clampedQty := Z.min qty units in
    match index with
    | Some index =>
        <[index :=
            rewritten l index pid
              (JS.nullish_bool (IProducts.selected <$> l !! index) true)
              clampedQty]> l
    | None => l ++ [IProducts.mk pid clampedQty true]
    end.

Definition removeProduct (pid : Z) (l : list IProducts.t) : list IProducts.t :=
  List.filter (fun item => negb (has_id pid item)) l.

Definition deselectProduct (pid : Z) (l : list IProducts.t) : list IProducts.t :=
  List.map
    (fun product =>
       if has_id pid product
       then IProducts.mk (IProducts.id product) (IProducts.quantity product)
              (negb (IProducts.selected product))
       else product)
    l.

End Lines.

(** ** The reducers of the slice *)

Definition addProductToCart (pid : Z) (sel : bool) (qty : Z)
    (s : InitialStateType) : InitialStateType :=
  set_productsData (Lines.addProductToCart pid sel qty (productsData s)) s.

Definition addProductsToCart (ps : list IProductsEntity.t)
    (s : InitialStateType) : InitialStateType :=
  set_products ps s.

Definition increaseProductQty (units pid qty : Z) (s : InitialStateType)
  : InitialStateType :=
  set_productsData (Lines.increaseProductQty units pid qty (productsData s)) s.

Definition decreaseProductQty (pid qty : Z) (s : InitialStateType)
  : InitialStateType :=
  set_productsData (Lines.decreaseProductQty pid qty (productsData s)) s.

Definition setProductQty (units pid qty : Z) (s : InitialStateType)
  : InitialStateType :=
  set_productsData (Lines.setProductQty units pid qty (productsData s)) s.

Definition removeProduct (pid : Z) (s : InitialStateType) : InitialStateType :=
  set_productsData (Lines.removeProduct pid (productsData s)) s.

Definition deselectProduct (pid : Z) (s : InitialStateType) : InitialStateType :=
  set_productsData (Lines.deselectProduct pid (productsData s)) s.

(** [state.productsData = initialState.productsData;
     state.products = initialState.products]: both are the empty array. *)
Definition removeAllProducts (s : InitialStateType) : InitialStateType :=
  set_products [] (set_productsData [] s).

(** The payload of [setDeliveryData]; [interval] may be left out. *)
Module DeliveryPayload.
Record t : Type := mk {
  date : Z;
  time : string;
  address : string;
  interval : option (list Z)
}.
End DeliveryPayload.

Definition setDeliveryData (a : DeliveryPayload.t) (s : InitialStateType)
  : InitialStateType :=
  let d := deliveryData s in
  set_deliveryData
    (DeliveryData.mk
       (DeliveryPayload.date a)
       (DeliveryPayload.time a)
       (DeliveryPayload.address a)
       (match DeliveryPayload.interval a with
        | Some i => Some i
        | None => DeliveryData.interval d
        end))
    s.

(** The actions of the product ledger, and the reducer that dispatches on
    them. *)
Inductive LedgerAction : Type :=
  | AddProductToCart (pid : Z) (sel : bool) (qty : Z)
  | IncreaseProductQty (units pid qty : Z)
  | DecreaseProductQty (pid qty : Z)
  | SetProductQty (units pid qty : Z)
  | DeselectProduct (pid : Z)
  | RemoveProduct (pid : Z)
  | RemoveAllProducts.

Definition reducer (s : InitialStateType) (a : LedgerAction) : InitialStateType :=
  match a with
  | AddProductToCart pid sel qty => addProductToCart pid sel qty s
  | IncreaseProductQty units pid qty => increaseProductQty units pid qty s
  | DecreaseProductQty pid qty => decreaseProductQty pid qty s
  | SetProductQty units pid qty => setProductQty units pid qty s
  | DeselectProduct pid => deselectProduct pid s
  | RemoveProduct pid => removeProduct pid s
  | RemoveAllProducts => removeAllProducts s
  end.

(** Dispatching a sequence of actions, first action first. *)
Definition dispatchAll (s : InitialStateType) (acts : list LedgerAction)
  : InitialStateType :=
  fold_left reducer acts s.

(** ** Selectors *)

Definition selectCartData (s : InitialStateType) : list IProducts.t :=
  productsData s.

Definition selectCartItems (s : InitialStateType) : list IProductsEntity.t :=
  products s.

Definition selectIsInCart (s : InitialStateType) (productId : Z) : bool :=
  JS.some (Lines.has_id productId) (productsData s).

(** The line [Array.prototype.find] returns for an id. *)
Definition findLine (pid : Z) (l : list IProducts.t) : option IProducts.t :=
  List.find (Lines.has_id pid) l.

Definition selectCartItemWithIdLength (s : InitialStateType) (pid : Z) : Z :=
  match findLine pid (productsData s) with
  | Some product => IProducts.quantity product
  | None => 0
  end.

(** [p.id === product.id] for an entity [p] and a line id. *)
Definition entity_has_id (pid : Z) (p : IProductsEntity.t) : bool :=
  match IProductsEntity.id p with
  | Some i => i =? pid
  | None => false
  end.

(** [products.find((p) => p.id === id)]. *)
Definition findProduct (pid : Z) (ps : list IProductsEntity.t)
  : option IProductsEntity.t :=
  List.find (entity_has_id pid) ps.

(** [p?.statusIdentifier === 'in_stock' &&
     (p?.attributeValues?.units_product?.value ?? 0) >= 1]. *)
Definition isInStock (p : option IProductsEntity.t) : bool :=
  match JS.chain IProductsEntity.statusIdentifier p with
  | Some st => String.eqb st "in_stock"
  | None => false
  end
  && (JS.nullish_num (JS.chain IProductsEntity.units_product_value p) 0 >=? 1).

(** [p ? p.attributeValues?.sale?.value || p.attributeValues?.price?.value
        || p.price || 0 : 0]. *)
Definition unitPrice (p : option IProductsEntity.t) : Z :=
  match p with
  | Some e =>
      JS.or_num
        (JS.or
           (JS.or (IProductsEntity.sale_value e) (IProductsEntity.price_value e))
           (IProductsEntity.price e))
        0
  | None => 0
  end.

(** The callback of the [reduce] in [selectCartTotal]. *)
Definition addLine (ps : list IProductsEntity.t) (total : Z)
    (product : IProducts.t) : Z :=
  if IProducts.selected product then
    let p := findProduct (IProducts.id product) ps in
    if isInStock p then total + unitPrice p * IProducts.quantity product
    else total
  else total.

Definition selectCartTotal (s : InitialStateType) : Z :=
  fold_left (addLine (products s)) (productsData s) 0.

(** ** The total shown by [TotalAmount] *)

Definition hasProducts (s : InitialStateType) : bool :=
  JS.some IProducts.selected (productsData s).

(** [delivery?.attributeValues?.price?.value || delivery?.price || 0]. *)
Definition deliveryPrice (d : IProductsEntity.t) : Z :=
  JS.or_num
    (JS.or (IProductsEntity.price_value d) (IProductsEntity.price d))
    0.

Definition cartTotal (s : InitialStateType) : Z :=
  if negb (hasProducts s) then 0
  else selectCartTotal s + deliveryPrice (delivery s).

(** ** The order lines of the payment page *)

Module OrderLine.
Record t : Type := mk { productId : Z; quantity : Z; selected : bool }.
End OrderLine.

(** [combinedProducts]: the fetched products when there are any, else the
    products of the slice. *)
Definition combinedProducts (fetched : option (list IProductsEntity.t))
    (productsItems : list IProductsEntity.t) : list IProductsEntity.t :=
  match fetched with
  | None | Some [] => productsItems
  | Some ps => ps
  end.

(** The filter callback of [productsInOrder]. *)
Definition orderable (combined : list IProductsEntity.t) (item : IProducts.t)
  : bool :=
  if negb (IProducts.selected item) then false
  else
    match findProduct (IProducts.id item) combined with
    | None => false
    | Some product => isInStock (Some product)
    end.

Definition toOrderLine (item : IProducts.t) : OrderLine.t :=
  OrderLine.mk (IProducts.id item) (IProducts.quantity item)
    (IProducts.selected item).

(** [productsInOrder]; [deliveryData] is the slice's [delivery], [None] when
    the store holds no object there. *)
Definition productsInOrder (productsCartData : list IProducts.t)
    (combined : list IProductsEntity.t)
    (deliveryData : option IProductsEntity.t) : list OrderLine.t :=
  let hasCartItems := JS.some IProducts.selected productsCartData in
  if negb hasCartItems && negb (bool_decide (is_Some deliveryData)) then []
  else
    let orderProducts :=
      List.map toOrderLine (List.filter (orderable combined) productsCartData) in
    if JS.truthy (JS.chain IProductsEntity.id deliveryData)
    then orderProducts
           ++ [OrderLine.mk
                 (JS.nullish_num (JS.chain IProductsEntity.id deliveryData) 0) 1 true]
    else orderProducts.

(** ** The interval filter of the calendar form *)

Module Calendar.

Definition msPerMinute : Z := 60000.
Definition msPerDay : Z := 86400000.

(** Instants are epoch milliseconds.  The local time zone of the runtime is
    a fixed offset [tz], in minutes east of UTC.  [dayjs(d)] is a local-mode
    object; [.startOf('day')] and [.endOf('day')] move it to the first and to
    the last millisecond of its local calendar day; [.utc()] keeps the
    instant.  The two definitions below are exact for runtimes whose zone
    keeps one offset all year (UTC, UTC+02:00, UTC+05:00, ...), where every
    local day lasts 24 hours.  A zone with daylight saving has days of 23
    and of 25 hours; such runtimes are outside this model, and every
    statement about [startOfDay], [endOfDay] and the filter below is a
    statement about fixed-offset runtimes. *)
Definition startOfDay (tz : Z) (t : Z) : Z :=
  (t + tz * msPerMinute) / msPerDay * msPerDay - tz * msPerMinute.

Definition endOfDay (tz : Z) (t : Z) : Z :=
  startOfDay tz t + msPerDay - 1.

Definition utc (t : Z) : Z := t.

Definition isBefore (a b : Z) : bool := a <? b.
Definition isAfter (a b : Z) : bool := a >? b.

Definition filterIntervalsByDate (tz : Z) (intervals : option (list (Z * Z)))
    (targetDate : Z) : list (Z * Z) :=
  match intervals with
  | None => []
  | Some intervals =>
      let startOfDay := utc (startOfDay tz targetDate) in
      let endOfDay := utc (endOfDay tz targetDate) in
      List.filter
        (fun '(start, end_) =>
           let intervalStart := utc start in
           let intervalEnd := utc end_ in
           isBefore intervalStart endOfDay && isAfter intervalEnd startOfDay)
        intervals
  end.

(** The boundaries of the UTC calendar day that contains an instant. *)
Definition startOfDayUTC (t : Z) : Z := t / msPerDay * msPerDay.
Definition endOfDayUTC (t : Z) : Z := startOfDayUTC t + msPerDay - 1.

(** The filter as the specification words it: overlap with the UTC calendar
    day of the target date. *)
Definition spec_filterIntervalsForDate (intervals : list (Z * Z))
    (targetDate : Z) : list (Z * Z) :=
  List.filter
    (fun '(start, end_) =>
       (start <? endOfDayUTC targetDate) && (end_ >? startOfDayUTC targetDate))
    intervals.

(** Days since 1970-01-01 of a date of the proleptic Gregorian calendar. *)
Definition daysFromCivil (y m d : Z) : Z :=
  let y' := if m <=? 2 then y - 1 else y in
  let era := y' / 400 in
  let yoe := y' - era * 400 in
  let mp := (m + 9) mod 12 in
  let doy := (153 * mp + 2) / 5 + d - 1 in
  let doe := yoe * 365 + yoe / 4 - yoe / 100 + doy in
  era * 146097 + doe - 719468.

(** The instant an ISO-8601 timestamp [y-m-dTh:mi:s+off] denotes, [off] in
    minutes east of UTC ([Z] is offset 0). *)
Definition iso (y m d h mi s : Z) (off : Z) : Z :=
  (((daysFromCivil y m d * 24 + h) * 60 + mi) * 60 + s) * 1000
  - off * msPerMinute.

End Calendar.

(** ** Reading the total as a sum *)

(** A line counts towards the total when it is selected and the snapshot
    found for its id is in stock. *)
Definition qualifies (ps : list IProductsEntity.t) (line : IProducts.t) : bool :=
  IProducts.selected line && isInStock (findProduct (IProducts.id line) ps).

(** What a counted line adds. *)
Definition lineAmount (ps : list IProductsEntity.t) (line : IProducts.t) : Z :=
  unitPrice (findProduct (IProducts.id line) ps) * IProducts.quantity line.

Definition sumZ (l : list Z) : Z := fold_right Z.add 0 l.

(** The first number of a list of possibly undefined numbers that is defined
    and not 0; 0 when there is none. *)
Fixpoint firstNonzero (l : list (option Z)) : Z :=
  match l with
  | [] => 0
  | Some n :: l' => if n =? 0 then firstNonzero l' else n
  | None :: l' => firstNonzero l'
  end.

(** The unit price as the specification words it: the sale value if present,
    else the price, else 0. *)
Definition spec_unitPrice (e : IProductsEntity.t) : Z :=
  match IProductsEntity.sale_value e with
  | Some v => v
  | None =>
      match IProductsEntity.price_value e with
      | Some v => v
      | None =>
          match IProductsEntity.price e with
          | Some v => v
          | None => 0
          end
      end
  end.

(** The subtotal as the specification words it. *)
Definition spec_subtotal (s : InitialStateType) : Z :=
  sumZ
    (List.map
       (fun line =>
          match findProduct (IProducts.id line) (products s) with
          | Some e => spec_unitPrice e * IProducts.quantity line
          | None => 0
          end)
       (List.filter (qualifies (products s)) (productsData s))).

(** The total as the specification words it: the delivery price is added
    when some line is selected and in stock, and the total is 0 when no line
    is. *)
Definition spec_computeTotal (s : InitialStateType) : Z :=
  if existsb (qualifies (products s)) (productsData s)
  then selectCartTotal s + deliveryPrice (delivery s)
  else 0.

(** ** Well-formed carts and in-range actions *)

(** The ids of the cart lines, in order. *)
Definition ids (l : list IProducts.t) : list Z := List.map IProducts.id l.

(** Every line holds at least one unit, and no product has two lines. *)
Definition wellFormed (l : list IProducts.t) : Prop :=
  Forall (fun line => 1 <= IProducts.quantity line) l /\ List.NoDup (ids l).

(** An action whose stock count is at least 1 and whose increment is not
    negative; the other actions carry no such argument. *)
Definition inRange (a : LedgerAction) : Prop :=
  match a with
  | IncreaseProductQty units _ qty => 1 <= units /\ 0 <= qty
  | SetProductQty units _ _ => 1 <= units
  | _ => True
  end.

(** ** The slice's other reducers, and the callers of its selectors *)

Definition addDeliveryToCart (d : IProductsEntity.t) (s : InitialStateType)
  : InitialStateType :=
  {| products := products s;
     productsData := productsData s;
     currency := currency s;
     delivery := d;
     deliveryData := deliveryData s;
     transitionId := transitionId s;
     total := total s;
     version := version s |}.

(** The product a ledger action is about; [removeAllProducts] has none. *)
Definition target (a : LedgerAction) : option Z :=
  match a with
  | AddProductToCart pid _ _ => Some pid
  | IncreaseProductQty _ pid _ => Some pid
  | DecreaseProductQty pid _ => Some pid
  | SetProductQty _ pid _ => Some pid
  | DeselectProduct pid => Some pid
  | RemoveProduct pid => Some pid
  | RemoveAllProducts => None
  end.

(** What a line adds to the subtotal: its amount when it counts, else 0. *)
Definition contribution (ps : list IProductsEntity.t) (line : IProducts.t) : Z :=
  if qualifies ps line then lineAmount ps line else 0.

(** [QuantitySelector]: the quantity is
    [selectCartItemWithIdLength(state, id) || 0], and the controls are
    rendered unless [quantity <= 0]. *)
Definition quantitySelectorShown (s : InitialStateType) (pid : Z) : bool :=
  let quantity := JS.or_num (Some (selectCartItemWithIdLength s pid)) 0 in
  negb (quantity <=? 0).

(** A product row of [OrderProductsTable]: the React key (the product's id),
    the unit price shown and the quantity shown. *)
Module OrderRow.
Record t : Type := mk { key : option Z; amount : Z; quantity : Z }.
End OrderRow.

(** The callback of the [map] over the cart lines in [OrderProductsTable];
    [None] is the [null] React leaves out. *)
Definition orderProductRow (actualProducts : list IProductsEntity.t)
    (product : IProducts.t) : option OrderRow.t :=
  match findProduct (IProducts.id product) actualProducts with
  | None => None
  | Some actualProduct =>
      if negb (IProducts.selected product) then None
      else if negb (isInStock (Some actualProduct)) then None
      else
        Some
          (OrderRow.mk (IProductsEntity.id actualProduct)
             (JS.or_num
                (JS.or
                   (JS.or (IProductsEntity.sale_value actualProduct)
                          (IProductsEntity.price_value actualProduct))
                   (IProductsEntity.price actualProduct))
                0)
             (IProducts.quantity product))
  end.

(** The rows [OrderProductsTable] renders for the cart lines; [productsProp]
    is the [products] prop, and [products || productsInCart] falls back to
    the slice's products when the prop is undefined (an array is truthy). *)
Definition orderProductRows (productsProp : option (list IProductsEntity.t))
    (s : InitialStateType) : list OrderRow.t :=
  let actualProducts :=
    match productsProp with
    | Some ps => ps
    | None => selectCartItems s
    end in
  omap (orderProductRow actualProducts) (selectCartData s).

(** The amount of the delivery row of [OrderProductsTable]:
    [delivery?.attributeValues?.price?.value || delivery?.price ||
     d?.attributeValues?.price?.value || d?.price || 0], with [delivery] the
    prop and [d] the slice's delivery. *)
Definition deliveryRowAmount (deliveryProp : option IProductsEntity.t)
    (d : IProductsEntity.t) : Z :=
  JS.or_num
    (JS.or
       (JS.or
          (JS.or (JS.chain IProductsEntity.price_value deliveryProp)
                 (JS.chain IProductsEntity.price deliveryProp))
          (IProductsEntity.price_value d))
       (IProductsEntity.price d))
    0.

(** What [PaymentMethod] shows in its products cell: the rows of
    [OrderProductsTable] and the amount of its delivery row when some cart
    line is selected, and the text "No items in cart" ([None]) otherwise.
    The slice's delivery is an object, so the table's own early return (no
    selected line and no delivery) is never taken. *)
Definition paymentMethodTable (productsProp : option (list IProductsEntity.t))
    (deliveryProp : option IProductsEntity.t) (s : InitialStateType)
  : option (list OrderRow.t * Z) :=
  let hasCartItems := JS.some IProducts.selected (productsData s) in
  if hasCartItems
  then Some (orderProductRows productsProp s,
             deliveryRowAmount deliveryProp (delivery s))
  else None.

(** The payment page's effect on fetched products:
    [if (productsData) dispatch(addProductsToCart(productsData))]. *)
Definition syncProducts (fetched : option (list IProductsEntity.t))
    (s : InitialStateType) : InitialStateType :=
  match fetched with
  | Some ps => addProductsToCart ps s
  | None => s
  end.

(** The payment page creates the order when
    [productsInOrder.length > 0]. *)
Definition orderCreated (lines : list OrderLine.t) : bool :=
  (Z.of_nat (length lines) >? 0).

(** A payment account and an entry of the whitelist; both are matched on
    [identifier]. *)
Module Account.
Record t : Type := mk { id : Z; identifier : string }.
End Account.

(** [whitelistMethods] of the payment page: [data] are the fetched accounts,
    [paymentMethods] the whitelist of the order slice. *)
Definition whitelistMethods (data : option (list Account.t))
    (paymentMethods : option (list string)) : list Account.t :=
  match data with
  | None => []
  | Some data =>
      match paymentMethods with
      | None | Some [] => data
      | Some whitelist =>
          List.filter
            (fun method =>
               JS.some
                 (fun whitelistMethod =>
                    String.eqb (Account.identifier method) whitelistMethod)
                 whitelist)
            data
      end
  end.

(** A number that, when defined, is not negative. *)
Definition nonNegative (v : option Z) : Prop :=
  match v with
  | Some n => 0 <= n
  | None => True
  end.

(** An entity none of whose price fields is negative. *)
Definition pricesNonNegative (e : IProductsEntity.t) : Prop :=
  nonNegative (IProductsEntity.sale_value e) /\
  nonNegative (IProductsEntity.price_value e) /\
  nonNegative (IProductsEntity.price e).

(** What a row of the order table stands for: unit price times quantity. *)
Definition rowTotal (r : OrderRow.t) : Z :=
  OrderRow.amount r * OrderRow.quantity r.

(** What an order line costs at the snapshots [ps]. *)
Definition orderLineTotal (ps : list IProductsEntity.t) (ol : OrderLine.t) : Z :=
  unitPrice (findProduct (OrderLine.productId ol) ps) * OrderLine.quantity ol.

(** A line with its flag flipped, as [deselectProduct] rewrites it. *)
Definition toggled (line : IProducts.t) : IProducts.t :=
  IProducts.mk (IProducts.id line) (IProducts.quantity line)
    (negb (IProducts.selected line)).

(** ** Concrete carts used below *)

Module Sample.

Definition noDeliveryData : DeliveryData.t :=
  DeliveryData.mk 0 EmptyString EmptyString None.

(** A delivery product priced 10. *)
Definition courier : IProductsEntity.t :=
  IProductsEntity.mk (Some 9) (Some "in_stock") (Some 10) None.

(** Product 1, sold out. *)
Definition soldOut : IProductsEntity.t :=
  IProductsEntity.mk (Some 1) (Some "out_of_stock") (Some 5)
    (Some (AttributeValues.mk None (Some 5) (Some 0))).

(** Product 1, in stock, price 100, with a sale attribute whose value is 0. *)
Definition zeroSale : IProductsEntity.t :=
  IProductsEntity.mk (Some 1) (Some "in_stock") (Some 100)
    (Some (AttributeValues.mk (Some 0) (Some 100) (Some 3))).

(** Product 2, in stock, price 40, on sale for 30. *)
Definition onSale : IProductsEntity.t :=
  IProductsEntity.mk (Some 2) (Some "in_stock") (Some 40)
    (Some (AttributeValues.mk (Some 30) (Some 40) (Some 8))).

(** Two units of product 1, selected. *)
Definition twoOfProduct1 : list IProducts.t := [IProducts.mk 1 2 true].

Definition cart (ps : list IProductsEntity.t) (lines : list IProducts.t)
    (d : IProductsEntity.t) : InitialStateType :=
  mkState ps lines None d noDeliveryData 0 0 0.

(** The schedule and the target date of the specification's example:
    one interval from 2024-01-01T23:00:00Z to 2024-01-02T01:00:00Z, and the
    date 2024-01-02T00:00:00+05:00. *)
Definition overnight : list (Z * Z) :=
  [(Calendar.iso 2024 1 1 23 0 0 0, Calendar.iso 2024 1 2 1 0 0 0)].
Definition targetDate : Z := Calendar.iso 2024 1 2 0 0 0 300.

(** A delivery product priced 10 whose id is 0. *)
Definition courierZero : IProductsEntity.t :=
  IProductsEntity.mk (Some 0) (Some "in_stock") (Some 10) None.

(** The only selected line is sold out; a delivery priced 10 is chosen. *)
Definition soldOutWithDelivery : InitialStateType :=
  cart [soldOut] twoOfProduct1 courier.

(** Two units of a product whose sale value is 0. *)
Definition zeroSaleCart : InitialStateType :=
  cart [zeroSale] twoOfProduct1 IProductsEntity.empty.

End Sample.


(** * Properties *)

(** ** Array lookups *)

Section ArrayFacts.
Context {A : Type} (f : A -> bool).

Lemma findIndex_Some (l : list A) (i : nat) :
  JS.findIndex f l = Some i ->
  exists x, l !! i = Some x /\ f x = true /\ List.find f l = Some x.
Proof.
  revert i. induction l as [|a l IH]; intros i; simpl; [discriminate|].
  destruct (f a) eqn:Ha.
  - intros [= <-]. exists a. auto.
  - destruct (JS.findIndex f l) as [j|]; simpl; [|discriminate].
    intros [= <-]. destruct (IH j eq_refl) as (x & ? & ? & ?).
    exists x. auto.
Qed.

Lemma findIndex_None (l : list A) :
  JS.findIndex f l = None -> List.find f l = None.
Proof.
  induction l as [|a l IH]; simpl; [reflexivity|].
  destruct (f a); [discriminate|].
  destruct (JS.findIndex f l); simpl; [discriminate|auto].
Qed.

Lemma find_None_findIndex (l : list A) :
  List.find f l = None -> JS.findIndex f l = None.
Proof.
  induction l as [|a l IH]; simpl; [reflexivity|].
  destruct (f a); [discriminate|].
  intros H. rewrite (IH H). reflexivity.
Qed.

Lemma find_Some_findIndex (l : list A) (x : A) :
  List.find f l = Some x ->
  exists i, JS.findIndex f l = Some i /\ l !! i = Some x.
Proof.
  induction l as [|a l IH]; simpl; [discriminate|].
  destruct (f a).
  - intros [= <-]. exists O. auto.
  - intros H. destruct (IH H) as (i & Hi & Hl).
    exists (S i). rewrite Hi. auto.
Qed.

Lemma find_insert_at_findIndex (l : list A) (i : nat) (y : A) :
  JS.findIndex f l = Some i -> f y = true ->
  List.find f (<[i := y]> l) = Some y.
Proof.
  revert i. induction l as [|a l IH]; intros i; simpl; [discriminate|].
  destruct (f a) eqn:Ha.
  - intros [= <-] Hy. simpl. rewrite Hy. reflexivity.
  - destruct (JS.findIndex f l) as [j|]; simpl; [|discriminate].
    intros [= <-] Hy. simpl. rewrite Ha. apply IH; auto.
Qed.

Lemma find_push (l : list A) (x : A) :
  List.find f l = None ->
  List.find f (l ++ [x]) = if f x then Some x else None.
Proof.
  induction l as [|a l IH]; simpl; [reflexivity|].
  destruct (f a); [discriminate|auto].
Qed.

Lemma find_filter_out (l : list A) :
  List.find f (List.filter (fun x => negb (f x)) l) = None.
Proof.
  induction l as [|a l IH]; simpl; [reflexivity|].
  destruct (f a) eqn:Ha; simpl; [|rewrite Ha]; exact IH.
Qed.

Lemma some_filter_out (l : list A) :
  JS.some f (List.filter (fun x => negb (f x)) l) = false.
Proof.
  unfold JS.some.
  induction l as [|a l IH]; simpl; [reflexivity|].
  destruct (f a) eqn:Ha; simpl; [|rewrite Ha]; exact IH.
Qed.

Lemma some_find (l : list A) :
  JS.some f l = bool_decide (is_Some (List.find f l)).
Proof.
  unfold JS.some.
  induction l as [|a l IH]; simpl; [reflexivity|].
  destruct (f a); simpl; [reflexivity|exact IH].
Qed.

End ArrayFacts.

Lemma or_num_defined (n d : Z) : d = 0 \/ d = n -> JS.or_num (Some n) d = n.
Proof.
  unfold JS.or_num. destruct (Z.eqb_spec n 0); lia.
Qed.

(** What the update branches of the reducers write at the index that
    [findIndex] returned: the id is the payload's id, the quantity and the
    flag are the ones computed from the line found there. *)
Lemma found_line (pid : Z) (l : list IProducts.t) (index : nat) :
  JS.findIndex (Lines.has_id pid) l = Some index ->
  exists old,
    l !! index = Some old /\ findLine pid l = Some old /\
    IProducts.id old = pid /\
    forall sel qty,
      Lines.rewritten l index pid sel qty = IProducts.mk pid qty sel.
Proof.
  intros H. destruct (findIndex_Some _ _ _ H) as (old & Hl & Hid & Hf).
  exists old. unfold Lines.has_id in Hid. apply Z.eqb_eq in Hid.
  repeat split; auto.
  intros sel qty. unfold Lines.rewritten. rewrite Hl.
  change (IProducts.id <$> Some old) with (Some (IProducts.id old)).
  rewrite or_num_defined by (right; congruence). congruence.
Qed.

Lemma found_line_fields (l : list IProducts.t) (index : nat) (old : IProducts.t) :
  l !! index = Some old ->
  JS.or_num (IProducts.quantity <$> l !! index) 0 = IProducts.quantity old /\
  JS.nullish_bool (IProducts.selected <$> l !! index) true
    = IProducts.selected old /\
  JS.or_bool (IProducts.selected <$> l !! index) true = true.
Proof.
  intros ->. repeat split.
  - apply or_num_defined. left. reflexivity.
  - simpl. destruct (IProducts.selected old); reflexivity.
Qed.

(** ** The reducers, branch by branch *)

Section Branches.
Variables (pid : Z) (l : list IProducts.t).

Section Found.
Variables (index : nat) (old : IProducts.t).
Hypothesis Hindex : JS.findIndex (Lines.has_id pid) l = Some index.
Hypothesis Hold : l !! index = Some old.

Ltac branch :=
  destruct (found_line _ _ _ Hindex) as (old' & Hl' & _ & _ & Hw);
  destruct (found_line_fields _ _ _ Hold) as (Hq & Hs & Hb);
  rewrite ?Hindex; cbv zeta; rewrite ?Hw, ?Hq, ?Hs, ?Hb.

Lemma addProductToCart_found (sel : bool) (qty : Z) :
  Lines.addProductToCart pid sel qty l
  = <[index := IProducts.mk pid (Z.max 1 (IProducts.quantity old + qty))
                 (IProducts.selected old)]> l.
Proof. unfold Lines.addProductToCart. branch. reflexivity. Qed.

Lemma increaseProductQty_found (units qty : Z) :
  Lines.increaseProductQty units pid qty l
  = <[index := IProducts.mk pid (Z.min (IProducts.quantity old + qty) units)
                 true]> l.
Proof. unfold Lines.increaseProductQty. branch. reflexivity. Qed.

Lemma decreaseProductQty_found (qty : Z) :
  Lines.decreaseProductQty pid qty l
  = if IProducts.quantity old - qty <=? 0
    then List.filter (fun item => negb (Lines.has_id pid item)) l
    else <[index := IProducts.mk pid (IProducts.quantity old - qty)
                      (IProducts.selected old)]> l.
Proof. unfold Lines.decreaseProductQty. branch. reflexivity. Qed.

Lemma setProductQty_found (units qty : Z) :
  Lines.setProductQty units pid qty l
  = if qty <=? 0
    then List.filter (fun item => negb (Lines.has_id pid item)) l
    else <[index := IProducts.mk pid (Z.min qty units)
                      (IProducts.selected old)]> l.
Proof. unfold Lines.setProductQty. branch. reflexivity. Qed.

End Found.

Section Absent.
Hypothesis Habsent : JS.findIndex (Lines.has_id pid) l = None.

Lemma addProductToCart_absent (sel : bool) (qty : Z) :
  Lines.addProductToCart pid sel qty l
  = l ++ [IProducts.mk pid (Z.max 1 qty) sel].
Proof. unfold Lines.addProductToCart. rewrite Habsent. reflexivity. Qed.

Lemma increaseProductQty_absent (units qty : Z) :
  Lines.increaseProductQty units pid qty l = l ++ [IProducts.mk pid 1 true].
Proof. unfold Lines.increaseProductQty. rewrite Habsent. reflexivity. Qed.

Lemma decreaseProductQty_absent (qty : Z) :
  Lines.decreaseProductQty pid qty l = l.
Proof. unfold Lines.decreaseProductQty. rewrite Habsent. reflexivity. Qed.

Lemma setProductQty_absent (units qty : Z) :
  Lines.setProductQty units pid qty l
  = if qty <=? 0
    then List.filter (fun item => negb (Lines.has_id pid item)) l
    else l ++ [IProducts.mk pid (Z.min qty units) true].
Proof. unfold Lines.setProductQty. rewrite Habsent. reflexivity. Qed.

End Absent.
End Branches.

(** The line [find] returns for [pid] is at the index [findIndex] returns, or
    both report that there is none. *)
Lemma findLine_cases (pid : Z) (l : list IProducts.t) :
  match findLine pid l with
  | Some old =>
      exists index,
        JS.findIndex (Lines.has_id pid) l = Some index /\ l !! index = Some old
  | None => JS.findIndex (Lines.has_id pid) l = None
  end.
Proof.
  unfold findLine. destruct (List.find _ l) as [old|] eqn:H.
  - apply find_Some_findIndex in H. exact H.
  - apply find_None_findIndex in H. exact H.
Qed.

Lemma has_id_mk (pid qty : Z) (sel : bool) :
  Lines.has_id pid (IProducts.mk pid qty sel) = true.
Proof. unfold Lines.has_id. simpl. apply Z.eqb_refl. Qed.

(** ** addProductToCart *)

(** C8.  [addProductToCart] changes only the list of cart lines.  When no
    line has the product id, it appends the line
    [{id, selected, quantity: max(1, deltaQuantity)}].  When a line has it,
    the line (the first with that id, at the index [findIndex] returns) is
    rewritten in place with quantity [max(1, old quantity + deltaQuantity)];
    its id and selected flag stay, the list keeps its length (the line is
    never removed) and every other position is untouched. *)
Theorem addProductToCart_spec (s : InitialStateType) (pid : Z) (sel : bool)
    (qty : Z) :
  let s' := addProductToCart pid sel qty s in
  let l := productsData s in
  s' = set_productsData (productsData s') s /\
  match findLine pid l with
  | None =>
      productsData s' = l ++ [IProducts.mk pid (Z.max 1 qty) sel] /\
      findLine pid (productsData s')
        = Some (IProducts.mk pid (Z.max 1 qty) sel)
  | Some old =>
      let new :=
        IProducts.mk pid (Z.max 1 (IProducts.quantity old + qty))
          (IProducts.selected old) in
      exists index : nat,
        JS.findIndex (Lines.has_id pid) l = Some index /\
        l !! index = Some old /\
        productsData s' = <[index := new]> l /\
        productsData s' !! index = Some new /\
        findLine pid (productsData s') = Some new /\
        1 <= IProducts.quantity new /\
        length (productsData s') = length l /\
        forall j : nat, j <> index -> productsData s' !! j = l !! j
  end.
Proof.
  cbv zeta. split; [reflexivity|].
  unfold addProductToCart. cbn [productsData set_productsData].
  pose proof (findLine_cases pid (productsData s)) as H.
  destruct (findLine pid (productsData s)) as [old|] eqn:Hfind.
  - destruct H as (index & Hi & Hl). exists index.
    rewrite (addProductToCart_found _ _ _ _ Hi Hl).
    split; [exact Hi|]. split; [exact Hl|]. split; [reflexivity|].
    split; [apply list_lookup_insert_eq; eapply lookup_lt_Some; eauto|].
    split; [apply find_insert_at_findIndex; [exact Hi|apply has_id_mk]|].
    split; [simpl; lia|].
    split; [apply length_insert|].
    intros j Hj. apply list_lookup_insert_ne. congruence.
  - rewrite (addProductToCart_absent _ _ H). split; [reflexivity|].
    unfold findLine. rewrite find_push by exact Hfind.
    rewrite has_id_mk. reflexivity.
Qed.

(** ** setProductQty *)

(** What [setProductQty] stores.  With a quantity [q <= 0] it filters out
    every line of the product, so the product is no longer in the cart.
    With [q >= 1] the product has a line afterwards, whether it had one
    before or not, and the quantity stored in it is [min(q, max)]: it is
    [max] whenever [q > max], it is [q] otherwise, and it lies between 1 and
    [max] when [max >= 1]. *)
Theorem setProductQty_spec (s : InitialStateType) (units pid qty : Z) :
  let s' := setProductQty units pid qty s in
  (qty <= 0 ->
     productsData s'
       = List.filter (fun item => negb (Lines.has_id pid item)) (productsData s)
     /\ selectIsInCart s' pid = false
     /\ findLine pid (productsData s') = None) /\
  (0 < qty ->
     (exists line,
        findLine pid (productsData s') = Some line /\
        IProducts.quantity line = Z.min (Z.max qty 1) units) /\
     selectIsInCart s' pid = true /\
     selectCartItemWithIdLength s' pid = Z.min (Z.max qty 1) units /\
     (units < qty -> selectCartItemWithIdLength s' pid = units) /\
     (qty <= units -> selectCartItemWithIdLength s' pid = qty) /\
     (1 <= units -> 1 <= selectCartItemWithIdLength s' pid <= units)).
Proof.
  cbv zeta. unfold setProductQty, selectIsInCart, selectCartItemWithIdLength.
  cbn [productsData set_productsData].
  assert (Hrem : Lines.setProductQty units pid qty (productsData s)
                 = if qty <=? 0
                   then List.filter (fun item => negb (Lines.has_id pid item))
                          (productsData s)
                   else Lines.setProductQty units pid qty (productsData s)).
  { unfold Lines.setProductQty. destruct (qty <=? 0); reflexivity. }
  split.
  - intros Hq. rewrite Hrem. apply Z.leb_le in Hq. rewrite Hq.
    split; [reflexivity|]. split; [apply some_filter_out|].
    apply find_filter_out.
  - intros Hq.
    assert (Hline : findLine pid
                      (Lines.setProductQty units pid qty (productsData s))
                    = Some (IProducts.mk pid (Z.min qty units)
                              (match findLine pid (productsData s) with
                               | Some old => IProducts.selected old
                               | None => true
                               end))).
    { pose proof (findLine_cases pid (productsData s)) as H.
      assert (Hpos : (qty <=? 0) = false) by (apply Z.leb_gt; lia).
      destruct (findLine pid (productsData s)) as [old|] eqn:Hfind.
      - destruct H as (index & Hi & Hl).
        rewrite (setProductQty_found _ _ _ _ Hi Hl), Hpos.
        apply find_insert_at_findIndex; [exact Hi|apply has_id_mk].
      - rewrite (setProductQty_absent _ _ H), Hpos.
        unfold findLine. rewrite find_push by exact Hfind.
        rewrite has_id_mk. reflexivity. }
    rewrite some_find. fold (findLine pid
      (Lines.setProductQty units pid qty (productsData s))).
    rewrite Hline. cbn [IProducts.quantity].
    replace (Z.max qty 1) with qty by lia.
    split; [eexists; split; [reflexivity|reflexivity]|].
    split; [apply bool_decide_eq_true; eauto|].
    repeat split; lia.
Qed.

(** The clamp at a cart with the line present (5 units available, 9 asked)
    and at the empty cart. *)
Lemma setProductQty_spec_witness :
  selectCartItemWithIdLength
    (setProductQty 5 7 9
       (set_productsData [IProducts.mk 7 2 false] (initialState 0))) 7 = 5 /\
  selectCartItemWithIdLength (setProductQty 5 7 9 (initialState 0)) 7 = 5.
Proof.
  split.
  - apply (setProductQty_spec
             (set_productsData [IProducts.mk 7 2 false] (initialState 0))
             5 7 9); lia.
  - apply (setProductQty_spec (initialState 0) 5 7 9); lia.
Defined.



(** ** The selected flag under quantity changes *)

(** C9.  After [increaseProductQty] the product has a line and that line is
    selected, whatever the flag of the line was before (and also when the
    line is newly inserted).  [decreaseProductQty] and [setProductQty] keep
    the flag of an existing line: if the product has line [old] before and
    still has a line afterwards, that line carries [old]'s flag; the line
    survives a decrease exactly when the quantity stays positive, and a set
    exactly when the requested quantity is positive. *)
Theorem selected_flag_spec (s : InitialStateType) (pid : Z)
    (old : IProducts.t) :
  findLine pid (productsData s) = Some old ->
  (forall units qty,
     exists new,
       findLine pid (productsData (increaseProductQty units pid qty s))
         = Some new /\
       IProducts.selected new = true) /\
  (forall qty,
     findLine pid (productsData (decreaseProductQty pid qty s))
     = if IProducts.quantity old - qty <=? 0 then None
       else Some (IProducts.mk pid (IProducts.quantity old - qty)
                    (IProducts.selected old))) /\
  (forall units qty,
     findLine pid (productsData (setProductQty units pid qty s))
     = if qty <=? 0 then None
       else Some (IProducts.mk pid (Z.min qty units) (IProducts.selected old))).
Proof.
  intros Hfind.
  pose proof (findLine_cases pid (productsData s)) as H.
  rewrite Hfind in H. destruct H as (index & Hi & Hl).
  unfold increaseProductQty, decreaseProductQty, setProductQty.
  cbn [productsData set_productsData].
  split; [|split].
  - intros units qty. rewrite (increaseProductQty_found _ _ _ _ Hi Hl).
    eexists. split.
    + apply find_insert_at_findIndex; [exact Hi|apply has_id_mk].
    + reflexivity.
  - intros qty. rewrite (decreaseProductQty_found _ _ _ _ Hi Hl).
    destruct (IProducts.quantity old - qty <=? 0).
    + apply find_filter_out.
    + apply find_insert_at_findIndex; [exact Hi|apply has_id_mk].
  - intros units qty. rewrite (setProductQty_found _ _ _ _ Hi Hl).
    destruct (qty <=? 0).
    + apply find_filter_out.
    + apply find_insert_at_findIndex; [exact Hi|apply has_id_mk].
Qed.

(** A deselected line of quantity 3: one more unit selects it again, one
    unit less and a set to 2 leave it deselected. *)
Lemma selected_flag_spec_witness :
  let s := set_productsData [IProducts.mk 7 3 false] (initialState 0) in
  (exists new,
     findLine 7 (productsData (increaseProductQty 10 7 1 s)) = Some new /\
     IProducts.selected new = true) /\
  findLine 7 (productsData (decreaseProductQty 7 1 s))
    = Some (IProducts.mk 7 2 false) /\
  findLine 7 (productsData (setProductQty 10 7 2 s))
    = Some (IProducts.mk 7 2 false).
Proof.
  pose proof (selected_flag_spec
                (set_productsData [IProducts.mk 7 3 false] (initialState 0))
                7 (IProducts.mk 7 3 false) eq_refl) as (Hinc & Hdec & Hset).
  split; [exact (Hinc 10 1)|].
  split; [exact (Hdec 1)|exact (Hset 10 2)].
Defined.

(** A line that [increaseProductQty] inserts is selected as well. *)
Lemma increaseProductQty_inserts_selected (s : InitialStateType)
    (units pid qty : Z) :
  findLine pid (productsData s) = None ->
  productsData (increaseProductQty units pid qty s)
  = productsData s ++ [IProducts.mk pid 1 true].
Proof.
  intros Hfind. pose proof (findLine_cases pid (productsData s)) as H.
  rewrite Hfind in H. unfold increaseProductQty.
  cbn [productsData set_productsData].
  apply increaseProductQty_absent. exact H.
Qed.

(** ** removeAllProducts *)

(** C10.  [removeAllProducts] empties the cart lines and the list of product
    snapshots and leaves every other field of the slice as it was: the
    delivery product, the delivery data with its date, time, address and
    interval, the currency, the transition id, the stored total and the
    version. *)
Theorem removeAllProducts_spec (s : InitialStateType) :
  let s' := removeAllProducts s in
  productsData s' = [] /\
  products s' = [] /\
  delivery s' = delivery s /\
  deliveryData s' = deliveryData s /\
  DeliveryData.date (deliveryData s') = DeliveryData.date (deliveryData s) /\
  DeliveryData.time (deliveryData s') = DeliveryData.time (deliveryData s) /\
  DeliveryData.address (deliveryData s')
    = DeliveryData.address (deliveryData s) /\
  DeliveryData.interval (deliveryData s')
    = DeliveryData.interval (deliveryData s) /\
  currency s' = currency s /\
  transitionId s' = transitionId s /\
  total s' = total s /\
  version s' = version s /\
  s' = mkState [] [] (currency s) (delivery s) (deliveryData s)
         (transitionId s) (total s) (version s).
Proof. cbv zeta. repeat split. Qed.

(** ** setDeliveryData *)

(** C7.  [setDeliveryData] stores the payload's date, time and address.  The
    stored interval becomes the payload's interval when the payload has one
    and stays what it was when the payload leaves it undefined.  No other
    field of the slice changes. *)
Theorem setDeliveryData_spec (s : InitialStateType) (a : DeliveryPayload.t) :
  let s' := setDeliveryData a s in
  DeliveryData.date (deliveryData s') = DeliveryPayload.date a /\
  DeliveryData.time (deliveryData s') = DeliveryPayload.time a /\
  DeliveryData.address (deliveryData s') = DeliveryPayload.address a /\
  match DeliveryPayload.interval a with
  | Some i => DeliveryData.interval (deliveryData s') = Some i
  | None =>
      DeliveryData.interval (deliveryData s')
      = DeliveryData.interval (deliveryData s)
  end /\
  products s' = products s /\
  productsData s' = productsData s /\
  currency s' = currency s /\
  delivery s' = delivery s /\
  transitionId s' = transitionId s /\
  total s' = total s /\
  version s' = version s.
Proof.
  cbv zeta. unfold setDeliveryData. cbn.
  destruct (DeliveryPayload.interval a); repeat split.
Qed.

(** ** selectCartTotal *)

Lemma addLine_amount (ps : list IProductsEntity.t) (acc : Z)
    (line : IProducts.t) :
  addLine ps acc line
  = acc + (if qualifies ps line then lineAmount ps line else 0).
Proof.
  unfold addLine, qualifies, lineAmount.
  destruct (IProducts.selected line); simpl; [|lia].
  destruct (isInStock _); lia.
Qed.

Lemma fold_addLine (ps : list IProductsEntity.t) (l : list IProducts.t)
    (acc : Z) :
  fold_left (addLine ps) l acc
  = acc + sumZ (List.map (lineAmount ps) (List.filter (qualifies ps) l)).
Proof.
  revert acc. induction l as [|line l IH]; intros acc; simpl; [lia|].
  rewrite IH, addLine_amount.
  destruct (qualifies ps line); simpl; lia.
Qed.

Lemma isInStock_iff (p : option IProductsEntity.t) :
  isInStock p = true <->
  exists e,
    p = Some e /\
    IProductsEntity.statusIdentifier e = Some "in_stock"%string /\
    1 <= JS.nullish_num (IProductsEntity.units_product_value e) 0.
Proof.
  unfold isInStock. destruct p as [e|]; simpl.
  - destruct (IProductsEntity.statusIdentifier e) as [st|] eqn:Hst; simpl.
    + destruct (String.eqb_spec st "in_stock") as [->|Hne]; simpl.
      * rewrite Z.geb_le. split.
        -- intros H. exists e. auto.
        -- intros (e' & [= <-] & _ & Hu). exact Hu.
      * split; [discriminate|].
        intros (e' & [= <-] & Hst' & _). congruence.
    + split; [discriminate|]. intros (e' & [= <-] & Hst' & _). congruence.
  - split; [discriminate|]. intros (e' & Hp & _). discriminate.
Qed.

Lemma unitPrice_firstNonzero (e : IProductsEntity.t) :
  unitPrice (Some e)
  = firstNonzero [IProductsEntity.sale_value e;
                  IProductsEntity.price_value e;
                  IProductsEntity.price e].
Proof.
  unfold unitPrice, JS.or, JS.or_num, JS.truthy. cbn [firstNonzero].
  destruct (IProductsEntity.sale_value e) as [a|];
    [destruct (a =? 0) eqn:Ha|];
    (destruct (IProductsEntity.price_value e) as [b|];
       [destruct (b =? 0) eqn:Hb|]);
    (destruct (IProductsEntity.price e) as [c|];
       [destruct (c =? 0) eqn:Hc|]);
    repeat (progress (cbn; rewrite ?Ha, ?Hb, ?Hc)); try reflexivity;
    apply Z.eqb_eq in Hc; congruence.
Qed.

(** C3, as the code has it.  The subtotal is the sum, over the cart lines
    that are selected and whose snapshot (the first product with the line's
    id) has status [in_stock] and at least one available unit (a missing
    unit count is 0), of unit price times quantity.  The unit price is the
    first of sale value, attribute price and product price that is defined
    and not 0, and 0 when there is none: a sale value of 0 does not make the
    product free, the price is used.  A line that is not selected, has no
    snapshot, or whose snapshot fails the stock test leaves the running total
    as it is. *)
Theorem selectCartTotal_spec (s : InitialStateType) :
  let ps := products s in
  selectCartTotal s
  = sumZ (List.map (lineAmount ps) (List.filter (qualifies ps) (productsData s)))
  /\
  (forall line,
     qualifies ps line = true <->
     IProducts.selected line = true /\
     exists e,
       findProduct (IProducts.id line) ps = Some e /\
       IProductsEntity.statusIdentifier e = Some "in_stock"%string /\
       1 <= JS.nullish_num (IProductsEntity.units_product_value e) 0) /\
  (forall line e,
     findProduct (IProducts.id line) ps = Some e ->
     lineAmount ps line
     = firstNonzero [IProductsEntity.sale_value e;
                     IProductsEntity.price_value e;
                     IProductsEntity.price e]
       * IProducts.quantity line) /\
  (forall acc line, qualifies ps line = false -> addLine ps acc line = acc).
Proof.
  cbv zeta. split; [|split; [|split]].
  - unfold selectCartTotal. rewrite fold_addLine. lia.
  - intros line. unfold qualifies. rewrite andb_true_iff, isInStock_iff.
    reflexivity.
  - intros line e He. unfold lineAmount. rewrite He, unitPrice_firstNonzero.
    reflexivity.
  - intros acc line Hq. rewrite addLine_amount, Hq. lia.
Qed.

(** C3 as worded fails on a sale value of 0: two units of a product priced
    100 whose sale attribute holds 0 cost 200, where "the sale value if
    present" would make them cost 0. *)
Lemma selectCartTotal_zero_sale_counterexample :
  IProductsEntity.sale_value Sample.zeroSale = Some 0 /\
  selectCartTotal Sample.zeroSaleCart = 200 /\
  spec_subtotal Sample.zeroSaleCart = 0 /\
  selectCartTotal Sample.zeroSaleCart <> spec_subtotal Sample.zeroSaleCart.
Proof. repeat split. discriminate. Qed.

(** Where the sale value is defined and not 0 the two readings agree. *)
Lemma unitPrice_on_sale (e : IProductsEntity.t) (v : Z) :
  IProductsEntity.sale_value e = Some v -> v <> 0 ->
  unitPrice (Some e) = v /\ spec_unitPrice e = v.
Proof.
  intros Hs Hv. rewrite unitPrice_firstNonzero. unfold spec_unitPrice.
  rewrite Hs. simpl. destruct (Z.eqb_spec v 0); [contradiction|auto].
Qed.

(** ** The total of TotalAmount *)

Lemma some_false_Forall {A : Type} (f : A -> bool) (l : list A) :
  JS.some f l = false <-> Forall (fun x => f x = false) l.
Proof.
  unfold JS.some. induction l as [|a l IH]; simpl.
  - split; auto.
  - rewrite orb_false_iff, IH. split.
    + intros [? ?]. constructor; auto.
    + intros H. inversion H; subst. auto.
Qed.

Lemma some_true_Exists {A : Type} (f : A -> bool) (l : list A) :
  JS.some f l = true <-> Exists (fun x => f x = true) l.
Proof.
  unfold JS.some. induction l as [|a l IH]; simpl.
  - split; [discriminate|]. intros H. inversion H.
  - rewrite orb_true_iff, IH. split.
    + intros [?|?]; [left|right]; auto.
    + intros H. inversion H; subst; auto.
Qed.

Lemma filter_qualifies_nil (ps : list IProductsEntity.t)
    (l : list IProducts.t) :
  Forall
    (fun line =>
       IProducts.selected line = true ->
       isInStock (findProduct (IProducts.id line) ps) = false) l ->
  List.filter (qualifies ps) l = [].
Proof.
  induction 1 as [|line l Hline _ IH]; simpl; [reflexivity|].
  unfold qualifies at 1.
  destruct (IProducts.selected line); simpl; [rewrite Hline by reflexivity|];
    exact IH.
Qed.

(** C1, as the code has it.  The total is 0 when no line is selected,
    whatever the delivery costs.  As soon as some line is selected, in stock
    or not, the total is the subtotal plus the delivery price (the delivery
    product's attribute price, else its price, else 0).  So a cart whose
    selected lines are all out of stock has the delivery price as its total,
    not 0. *)
Theorem cartTotal_spec (s : InitialStateType) :
  (Forall (fun line => IProducts.selected line = false) (productsData s) ->
   cartTotal s = 0) /\
  (Exists (fun line => IProducts.selected line = true) (productsData s) ->
   cartTotal s = selectCartTotal s + deliveryPrice (delivery s)) /\
  (Exists (fun line => IProducts.selected line = true) (productsData s) ->
   Forall
     (fun line =>
        IProducts.selected line = true ->
        isInStock (findProduct (IProducts.id line) (products s)) = false)
     (productsData s) ->
   cartTotal s = deliveryPrice (delivery s)) /\
  deliveryPrice (delivery s)
  = firstNonzero [IProductsEntity.price_value (delivery s);
                  IProductsEntity.price (delivery s)].
Proof.
  unfold cartTotal, hasProducts.
  split; [|split; [|split]].
  - intros H. apply some_false_Forall in H. rewrite H. reflexivity.
  - intros H. apply some_true_Exists in H. rewrite H. reflexivity.
  - intros H Hout. apply some_true_Exists in H. rewrite H. simpl.
    unfold selectCartTotal. rewrite fold_addLine.
    rewrite (filter_qualifies_nil _ _ Hout). simpl. lia.
  - unfold deliveryPrice, JS.or, JS.or_num, JS.truthy. cbn [firstNonzero].
    destruct (IProductsEntity.price_value (delivery s)) as [a|];
      [destruct (a =? 0) eqn:Ha|];
      (destruct (IProductsEntity.price (delivery s)) as [b|];
         [destruct (b =? 0) eqn:Hb|]);
      repeat (progress (cbn; rewrite ?Ha, ?Hb)); try reflexivity;
      apply Z.eqb_eq in Hb; congruence.
Qed.

(** C1 as worded fails on a cart whose only selected line is sold out and
    whose delivery costs 10: no line is selected and in stock, so the worded
    total is 0, and the total shown is 10. *)
Lemma cartTotal_sold_out_counterexample :
  existsb (qualifies (products Sample.soldOutWithDelivery))
    (productsData Sample.soldOutWithDelivery) = false /\
  deliveryPrice (delivery Sample.soldOutWithDelivery) = 10 /\
  spec_computeTotal Sample.soldOutWithDelivery = 0 /\
  cartTotal Sample.soldOutWithDelivery = 10 /\
  cartTotal Sample.soldOutWithDelivery <> 0.
Proof. repeat split. discriminate. Qed.

(** ** The order lines *)

Lemma orderable_qualifies (combined : list IProductsEntity.t)
    (item : IProducts.t) :
  orderable combined item = qualifies combined item.
Proof.
  unfold orderable, qualifies.
  destruct (IProducts.selected item); simpl; [|reflexivity].
  destruct (findProduct (IProducts.id item) combined); reflexivity.
Qed.

Lemma filter_orderable (combined : list IProductsEntity.t)
    (l : list IProducts.t) :
  List.filter (orderable combined) l = List.filter (qualifies combined) l.
Proof.
  induction l as [|item l IH]; simpl; [reflexivity|].
  rewrite orderable_qualifies, IH. reflexivity.
Qed.

Lemma toOrderLine_qualified (combined : list IProductsEntity.t)
    (l : list IProducts.t) :
  List.map toOrderLine (List.filter (qualifies combined) l)
  = List.map
      (fun item =>
         OrderLine.mk (IProducts.id item) (IProducts.quantity item) true)
      (List.filter (qualifies combined) l).
Proof.
  induction l as [|item l IH]; simpl; [reflexivity|].
  destruct (qualifies combined item) eqn:Hq; simpl; [|exact IH].
  rewrite IH. unfold toOrderLine. unfold qualifies in Hq.
  apply andb_true_iff in Hq. destruct Hq as [-> _]. reflexivity.
Qed.

Lemma filter_qualifies_unselected (combined : list IProductsEntity.t)
    (l : list IProducts.t) :
  JS.some IProducts.selected l = false ->
  List.filter (qualifies combined) l = [].
Proof.
  intros H. apply filter_qualifies_nil. apply some_false_Forall in H.
  eapply List.Forall_impl; [|exact H]. simpl. intros line Hl Hsel. congruence.
Qed.

(** [find] returns the first element that passes the test. *)
Lemma find_first {A : Type} (f : A -> bool) (l : list A) (x : A) :
  List.find f l = Some x <->
  exists k : nat,
    l !! k = Some x /\ f x = true /\
    forall (j : nat) (y : A), (j < k)%nat -> l !! j = Some y -> f y = false.
Proof.
  induction l as [|a l IH]; simpl.
  - split; [discriminate|]. intros (k & Hk & _). destruct k; discriminate.
  - destruct (f a) eqn:Ha.
    + split.
      * intros [= <-]. exists O. repeat split; auto. intros j y Hj. lia.
      * intros (k & Hk & Hx & Hfirst). destruct k as [|k].
        -- simpl in Hk. exact Hk.
        -- specialize (Hfirst O a ltac:(lia) eq_refl). congruence.
    + rewrite IH. split.
      * intros (k & Hk & Hx & Hfirst). exists (S k). repeat split; auto.
        intros [|j] y Hj Hy; simpl in Hy.
        -- congruence.
        -- apply (Hfirst j y); [lia|exact Hy].
      * intros (k & Hk & Hx & Hfirst). destruct k as [|k].
        -- simpl in Hk. congruence.
        -- exists k. repeat split; auto.
           intros j y Hj Hy. apply (Hfirst (S j) y); [lia|exact Hy].
Qed.

Lemma entity_has_id_true (pid : Z) (p : IProductsEntity.t) :
  entity_has_id pid p = true <-> IProductsEntity.id p = Some pid.
Proof.
  unfold entity_has_id. destruct (IProductsEntity.id p) as [i|].
  - rewrite Z.eqb_eq. split; congruence.
  - split; discriminate.
Qed.

Lemma entity_has_id_false (pid : Z) (p : IProductsEntity.t) :
  entity_has_id pid p = false <-> IProductsEntity.id p <> Some pid.
Proof.
  rewrite <- entity_has_id_true. destruct (entity_has_id pid p); split;
    congruence.
Qed.

(** The product [find] returns for an id is the first product of the list
    that carries this id. *)
Lemma findProduct_first (pid : Z) (ps : list IProductsEntity.t)
    (e : IProductsEntity.t) :
  findProduct pid ps = Some e <->
  exists k : nat,
    ps !! k = Some e /\ IProductsEntity.id e = Some pid /\
    forall (j : nat) (other : IProductsEntity.t),
      (j < k)%nat -> ps !! j = Some other ->
      IProductsEntity.id other <> Some pid.
Proof.
  unfold findProduct. rewrite find_first. split.
  - intros (k & Hk & Hid & Hfirst). exists k. split; [exact Hk|].
    split; [apply entity_has_id_true; exact Hid|].
    intros j other Hj Ho. apply entity_has_id_false. eauto.
  - intros (k & Hk & Hid & Hfirst). exists k. split; [exact Hk|].
    split; [apply entity_has_id_true; exact Hid|].
    intros j other Hj Ho. apply entity_has_id_false. eauto.
Qed.

(** The unit count [?.units_product?.value ?? 0] is at least 1 exactly when
    the attribute is there and holds a number that is at least 1. *)
Lemma units_at_least_one (e : IProductsEntity.t) :
  1 <= JS.nullish_num (IProductsEntity.units_product_value e) 0 <->
  exists (attrs : AttributeValues.t) (units : Z),
    IProductsEntity.attributeValues e = Some attrs /\
    AttributeValues.units_product attrs = Some units /\ 1 <= units.
Proof.
  unfold IProductsEntity.units_product_value, JS.chain, JS.nullish_num.
  destruct (IProductsEntity.attributeValues e) as [attrs|].
  - destruct (AttributeValues.units_product attrs) as [u|] eqn:Hu.
    + split.
      * intros H. exists attrs, u. auto.
      * intros (attrs' & u' & [= <-] & Hu' & H). congruence.
    + split; [lia|]. intros (attrs' & u' & [= <-] & Hu' & _). congruence.
  - split; [lia|]. intros (attrs' & u' & Hn & _). discriminate.
Qed.

(** C6, as the code has it.  The order lines are the cart lines that are
    selected and whose product, the first of the combined products that
    carries the line's id, has status [in_stock] and a unit count that is
    there and at least 1; each becomes [{productId, quantity, selected:
    true}], in cart order.  The line [{productId: delivery.id, quantity: 1,
    selected: true}] follows when the delivery has an id that is defined and
    not 0; the delivery's own status and units are not looked at.  With no
    cart line and such a delivery the result is the delivery line alone. *)
Theorem productsInOrder_spec (productsCartData : list IProducts.t)
    (combined : list IProductsEntity.t)
    (deliveryData : option IProductsEntity.t) :
  exists keep : IProducts.t -> bool,
    (forall item : IProducts.t,
       keep item = true <->
       IProducts.selected item = true /\
       exists (k : nat) (product : IProductsEntity.t)
              (attrs : AttributeValues.t) (units : Z),
         combined !! k = Some product /\
         IProductsEntity.id product = Some (IProducts.id item) /\
         (forall (j : nat) (other : IProductsEntity.t),
            (j < k)%nat -> combined !! j = Some other ->
            IProductsEntity.id other <> Some (IProducts.id item)) /\
         IProductsEntity.statusIdentifier product = Some "in_stock"%string /\
         IProductsEntity.attributeValues product = Some attrs /\
         AttributeValues.units_product attrs = Some units /\
         1 <= units) /\
    productsInOrder productsCartData combined deliveryData
    = List.map
        (fun item =>
           OrderLine.mk (IProducts.id item) (IProducts.quantity item) true)
        (List.filter keep productsCartData)
      ++ match deliveryData with
         | Some d =>
             match IProductsEntity.id d with
             | Some i => if i =? 0 then [] else [OrderLine.mk i 1 true]
             | None => []
             end
         | None => []
         end /\
    (forall (i : Z) (status : option string) (price : option Z)
            (attrs : option AttributeValues.t),
       i <> 0 ->
       productsInOrder [] combined
         (Some (IProductsEntity.mk (Some i) status price attrs))
       = [OrderLine.mk i 1 true]).
Proof.
  assert (Hgen : forall cart d,
    productsInOrder cart combined d
    = List.map
        (fun item =>
           OrderLine.mk (IProducts.id item) (IProducts.quantity item) true)
        (List.filter (qualifies combined) cart)
      ++ match d with
         | Some d =>
             match IProductsEntity.id d with
             | Some i => if i =? 0 then [] else [OrderLine.mk i 1 true]
             | None => []
             end
         | None => []
         end).
  { intros cart d. unfold productsInOrder.
    rewrite filter_orderable, toOrderLine_qualified.
    destruct (JS.some IProducts.selected cart) eqn:Hsome; simpl.
    - unfold JS.truthy. destruct d as [e|]; simpl;
        [destruct (IProductsEntity.id e) as [i|]; simpl;
           [destruct (i =? 0); simpl|]|];
        rewrite ?app_nil_r; reflexivity.
    - rewrite (filter_qualifies_unselected _ _ Hsome). simpl.
      destruct d as [e|]; simpl.
      + unfold JS.truthy.
        destruct (IProductsEntity.id e) as [i|]; simpl;
          [destruct (i =? 0); simpl|]; reflexivity.
      + reflexivity. }
  exists (qualifies combined). split; [|split].
  - intros item. unfold qualifies. rewrite andb_true_iff, isInStock_iff.
    split.
    + intros [Hsel (e & Hfind & Hst & Hu)]. split; [exact Hsel|].
      apply findProduct_first in Hfind. destruct Hfind as (k & Hk & Hid & Hf).
      apply units_at_least_one in Hu. destruct Hu as (attrs & u & Ha & Hu & H1).
      exists k, e, attrs, u. repeat split; assumption.
    + intros [Hsel (k & e & attrs & u & Hk & Hid & Hf & Hst & Ha & Hu & H1)].
      split; [exact Hsel|]. exists e.
      split; [apply findProduct_first; exists k; auto|].
      split; [exact Hst|]. apply units_at_least_one. exists attrs, u. auto.
  - apply Hgen.
  - intros i status price attrs Hi. rewrite Hgen. simpl.
    destruct (Z.eqb_spec i 0); [contradiction|reflexivity].
Qed.

(** C6 as worded fails on a delivery product whose id is 0: the test
    [deliveryData?.id] takes it for missing, so with an empty cart the
    result is empty instead of the delivery line, and with a cart line
    that is in stock the delivery line is left out. *)
Lemma productsInOrder_zero_id_counterexample :
  IProductsEntity.id Sample.courierZero = Some 0 /\
  productsInOrder [] [] (Some Sample.courierZero) = [] /\
  productsInOrder [IProducts.mk 2 3 true] [Sample.onSale]
    (Some Sample.courierZero)
  = [OrderLine.mk 2 3 true].
Proof. repeat split. Qed.

(** ** The quantity invariant *)

Section Invariant.

Lemma ids_insert (l : list IProducts.t) (index : nat) (old new : IProducts.t) :
  l !! index = Some old -> IProducts.id new = IProducts.id old ->
  ids (<[index := new]> l) = ids l.
Proof.
  revert index. induction l as [|a l IH]; intros [|index]; simpl;
    try discriminate.
  - intros [= <-] ->. reflexivity.
  - intros Hl Hid. f_equal. apply IH; assumption.
Qed.

Lemma ids_push (l : list IProducts.t) (new : IProducts.t) :
  ids (l ++ [new]) = ids l ++ [IProducts.id new].
Proof. unfold ids. apply List.map_app. Qed.

Lemma absent_not_in_ids (pid : Z) (l : list IProducts.t) :
  JS.findIndex (Lines.has_id pid) l = None -> ~ In pid (ids l).
Proof.
  intros H Hin. apply findIndex_None in H.
  unfold ids in Hin. apply List.in_map_iff in Hin.
  destruct Hin as (line & Hid & Hline).
  pose proof (List.find_none _ _ H _ Hline) as Hno.
  unfold Lines.has_id in Hno. apply Z.eqb_neq in Hno. contradiction.
Qed.

Lemma NoDup_push (xs : list Z) (x : Z) :
  List.NoDup xs -> ~ In x xs -> List.NoDup (xs ++ [x]).
Proof.
  induction 1 as [|y xs Hy Hnd IH]; simpl; intros Hx.
  - constructor; [intros []|constructor].
  - constructor.
    + rewrite List.in_app_iff. simpl. intros [?|[?|[]]]; [auto|subst; auto].
    + apply IH. auto.
Qed.

Lemma wellFormed_filter (f : IProducts.t -> bool) (l : list IProducts.t) :
  wellFormed l -> wellFormed (List.filter f l).
Proof.
  intros [Hq Hnd]. split.
  - clear Hnd. induction Hq as [|a l Ha _ IH]; simpl; [constructor|].
    destruct (f a); auto.
  - clear Hq. induction l as [|a l IH]; simpl; [constructor|].
    inversion Hnd as [|? ? Hnotin Hnd']; subst.
    destruct (f a); simpl; [constructor|]; auto.
    intros Hin. apply Hnotin. unfold ids in *.
    apply List.in_map_iff in Hin. destruct Hin as (x & Hx & Hin).
    apply List.filter_In in Hin. apply List.in_map_iff. exists x. tauto.
Qed.

Lemma wellFormed_insert (l : list IProducts.t) (index : nat)
    (old new : IProducts.t) :
  l !! index = Some old -> IProducts.id new = IProducts.id old ->
  1 <= IProducts.quantity new ->
  wellFormed l -> wellFormed (<[index := new]> l).
Proof.
  intros Hl Hid Hq [Hall Hnd]. split.
  - apply Forall_insert; assumption.
  - rewrite (ids_insert _ _ _ _ Hl Hid). exact Hnd.
Qed.

Lemma wellFormed_push (l : list IProducts.t) (new : IProducts.t) :
  JS.findIndex (Lines.has_id (IProducts.id new)) l = None ->
  1 <= IProducts.quantity new ->
  wellFormed l -> wellFormed (l ++ [new]).
Proof.
  intros Habs Hq [Hall Hnd]. split.
  - apply Forall_app. split; [exact Hall|]. constructor; [exact Hq|constructor].
  - rewrite ids_push. apply NoDup_push; [exact Hnd|].
    apply absent_not_in_ids. exact Habs.
Qed.

Lemma wellFormed_deselect (pid : Z) (l : list IProducts.t) :
  wellFormed l -> wellFormed (Lines.deselectProduct pid l).
Proof.
  intros [Hall Hnd]. unfold Lines.deselectProduct. split.
  - clear Hnd. induction Hall as [|a l Ha _ IH]; simpl; constructor; auto.
    destruct (Lines.has_id pid a); exact Ha.
  - replace (ids (List.map _ l)) with (ids l); [exact Hnd|].
    unfold ids. rewrite List.map_map. apply List.map_ext.
    intros a. destruct (Lines.has_id pid a); reflexivity.
Qed.

(** One in-range action keeps the cart well formed. *)
Lemma reducer_wellFormed (s : InitialStateType) (a : LedgerAction) :
  inRange a -> wellFormed (productsData s) ->
  wellFormed (productsData (reducer s a)).
Proof.
  intros Ha Hwf. pose proof Hwf as [Hall _].
  destruct a as [pid sel qty|units pid qty|pid qty|units pid qty|pid|pid|];
    cbn -[Lines.addProductToCart Lines.increaseProductQty
          Lines.decreaseProductQty Lines.setProductQty
          Lines.deselectProduct] in *.
  - destruct (JS.findIndex (Lines.has_id pid) (productsData s)) as [i|] eqn:Hi.
    + destruct (found_line _ _ _ Hi) as (old & Hl & _ & Hid & _).
      rewrite (addProductToCart_found _ _ _ _ Hi Hl).
      eapply wellFormed_insert; eauto. simpl. lia.
    + rewrite (addProductToCart_absent _ _ Hi).
      apply wellFormed_push; auto. simpl. lia.
  - destruct Ha as [Hu Hq].
    destruct (JS.findIndex (Lines.has_id pid) (productsData s)) as [i|] eqn:Hi.
    + destruct (found_line _ _ _ Hi) as (old & Hl & _ & Hid & _).
      rewrite (increaseProductQty_found _ _ _ _ Hi Hl).
      eapply wellFormed_insert; eauto. simpl.
      pose proof (Forall_lookup_1 _ _ _ _ Hall Hl) as Hold. simpl in Hold. lia.
    + rewrite (increaseProductQty_absent _ _ Hi).
      apply wellFormed_push; auto. simpl. lia.
  - destruct (JS.findIndex (Lines.has_id pid) (productsData s)) as [i|] eqn:Hi.
    + destruct (found_line _ _ _ Hi) as (old & Hl & _ & Hid & _).
      rewrite (decreaseProductQty_found _ _ _ _ Hi Hl).
      destruct (Z.leb_spec (IProducts.quantity old - qty) 0).
      * apply wellFormed_filter. exact Hwf.
      * eapply wellFormed_insert; eauto. simpl. lia.
    + rewrite (decreaseProductQty_absent _ _ Hi). exact Hwf.
  - destruct (JS.findIndex (Lines.has_id pid) (productsData s)) as [i|] eqn:Hi.
    + destruct (found_line _ _ _ Hi) as (old & Hl & _ & Hid & _).
      rewrite (setProductQty_found _ _ _ _ Hi Hl).
      destruct (Z.leb_spec qty 0).
      * apply wellFormed_filter. exact Hwf.
      * eapply wellFormed_insert; eauto. simpl. lia.
    + rewrite (setProductQty_absent _ _ Hi).
      destruct (Z.leb_spec qty 0).
      * apply wellFormed_filter. exact Hwf.
      * apply wellFormed_push; auto. simpl. lia.
  - apply wellFormed_deselect. exact Hwf.
  - apply wellFormed_filter. exact Hwf.
  - split; constructor.
Qed.

End Invariant.

(** With stock counts of at least 1 and increments that are not negative,
    every sequence of ledger actions keeps all quantities at 1 or more and
    the product ids unique. *)
Theorem dispatchAll_wellFormed (acts : list LedgerAction)
    (s : InitialStateType) :
  Forall inRange acts -> wellFormed (productsData s) ->
  wellFormed (productsData (dispatchAll s acts)).
Proof.
  unfold dispatchAll. revert s.
  induction acts as [|a acts IH]; intros s Hacts Hwf; simpl; [exact Hwf|].
  inversion Hacts; subst. apply IH; [assumption|].
  apply reducer_wellFormed; assumption.
Qed.

Lemma dispatchAll_wellFormed_witness :
  wellFormed
    (productsData
       (dispatchAll (initialState 0)
          [AddProductToCart 1 true 0; IncreaseProductQty 5 1 9;
           DecreaseProductQty 1 2; SetProductQty 4 2 7; DeselectProduct 1;
           DecreaseProductQty 2 4])).
Proof.
  apply dispatchAll_wellFormed.
  - repeat constructor; simpl; lia.
  - split; constructor.
Defined.

(** C4, the code at the inputs that break it.  From the empty cart, setting
    the quantity of a product whose stock count is 0 leaves a line of
    quantity 0; so do two increments under a stock count of 0; an increment
    by a negative amount leaves a negative quantity. *)
Theorem zero_quantity_line_reachable (now : Z) :
  productsData (dispatchAll (initialState now) [SetProductQty 0 1 1])
  = [IProducts.mk 1 0 true] /\
  productsData
    (dispatchAll (initialState now)
       [IncreaseProductQty 0 1 1; IncreaseProductQty 0 1 1])
  = [IProducts.mk 1 0 true] /\
  productsData
    (dispatchAll (initialState now)
       [IncreaseProductQty 5 1 1; IncreaseProductQty 5 1 (-3)])
  = [IProducts.mk 1 (-2) true].
Proof. repeat split. Qed.

(** ** The interval filter *)

(** [startOf('day')] in a zone [tz] minutes east of UTC: the instant found is
    a local midnight and the target lies in the 24 hours that follow it. *)
Lemma startOfDay_local_midnight (tz t : Z) :
  Calendar.startOfDay tz t <= t < Calendar.startOfDay tz t + Calendar.msPerDay
  /\ (Calendar.startOfDay tz t + tz * Calendar.msPerMinute)
       mod Calendar.msPerDay = 0.
Proof.
  unfold Calendar.startOfDay, Calendar.msPerDay, Calendar.msPerMinute.
  set (local := t + tz * 60000).
  pose proof (Z.div_mod local 86400000 ltac:(lia)) as Hdm.
  pose proof (Z.mod_pos_bound local 86400000 ltac:(lia)) as Hb.
  split; [lia|].
  replace (local / 86400000 * 86400000 - tz * 60000 + tz * 60000)
    with (local / 86400000 * 86400000) by lia.
  apply Z.mod_mul. lia.
Qed.

(** What the filter keeps: the intervals that start before the last
    millisecond of the target's day in the runtime's zone and end after its
    first millisecond. *)
Lemma filterIntervalsByDate_overlap (tz : Z) (l : list (Z * Z)) (t : Z)
    (start end_ : Z) :
  In (start, end_) (Calendar.filterIntervalsByDate tz (Some l) t) <->
  In (start, end_) l /\
  start < Calendar.endOfDay tz t /\ end_ > Calendar.startOfDay tz t.
Proof.
  unfold Calendar.filterIntervalsByDate, Calendar.utc, Calendar.isBefore,
    Calendar.isAfter.
  rewrite List.filter_In. simpl.
  rewrite andb_true_iff, Z.ltb_lt, Z.gtb_gt. tauto.
Qed.

(** In a runtime whose zone is UTC the filter is the one of the
    specification. *)
Lemma filterIntervalsByDate_in_utc_zone (l : list (Z * Z)) (t : Z) :
  Calendar.filterIntervalsByDate 0 (Some l) t
  = Calendar.spec_filterIntervalsForDate l t.
Proof.
  unfold Calendar.filterIntervalsByDate, Calendar.spec_filterIntervalsForDate,
    Calendar.endOfDay, Calendar.endOfDayUTC, Calendar.startOfDay,
    Calendar.startOfDayUTC, Calendar.utc, Calendar.isBefore, Calendar.isAfter.
  replace (t + 0 * Calendar.msPerMinute) with t by lia.
  replace (t / Calendar.msPerDay * Calendar.msPerDay
           - 0 * Calendar.msPerMinute)
    with (t / Calendar.msPerDay * Calendar.msPerDay) by lia.
  reflexivity.
Qed.

(** C2, the code on the specification's own example.  The interval overlaps
    the UTC day of the target date, and the filter returns it when the
    runtime's zone is UTC+05:00 or UTC.  In a runtime at UTC+02:00 the day
    the filter looks at runs from 2023-12-31T22:00:00Z to
    2024-01-01T21:59:59.999Z, and the result is empty. *)
Theorem filterIntervalsByDate_follows_runtime_zone :
  Calendar.spec_filterIntervalsForDate Sample.overnight Sample.targetDate
  = Sample.overnight /\
  Calendar.filterIntervalsByDate 300 (Some Sample.overnight) Sample.targetDate
  = Sample.overnight /\
  Calendar.filterIntervalsByDate 0 (Some Sample.overnight) Sample.targetDate
  = Sample.overnight /\
  Calendar.startOfDay 120 Sample.targetDate
  = Calendar.iso 2023 12 31 22 0 0 0 /\
  Calendar.endOfDay 120 Sample.targetDate
  = Calendar.iso 2024 1 1 21 59 59 0 + 999 /\
  Calendar.filterIntervalsByDate 120 (Some Sample.overnight) Sample.targetDate
  = [].
Proof. repeat split. Qed.

(** ** Sanity of the model *)

(** Where product ids are unique, as in every cart reached from the empty
    one by in-range actions, the line [find] returns for a line's id is that
    line. *)
Lemma findLine_unique (l : list IProducts.t) (line : IProducts.t) :
  List.NoDup (ids l) -> In line l ->
  findLine (IProducts.id line) l = Some line.
Proof.
  unfold findLine.
  induction l as [|a l IH]; simpl; intros Hnd Hin; [contradiction|].
  inversion Hnd as [|? ? Hnotin Hnd']; subst.
  destruct Hin as [->|Hin].
  - unfold Lines.has_id. rewrite Z.eqb_refl. reflexivity.
  - unfold Lines.has_id at 1.
    destruct (Z.eqb_spec (IProducts.id a) (IProducts.id line)) as [Heq|_].
    + exfalso. apply Hnotin. rewrite Heq. unfold ids.
      apply List.in_map. exact Hin.
    + apply IH; assumption.
Qed.

Example iso_epoch : Calendar.iso 1970 1 1 0 0 0 0 = 0.
Proof. reflexivity. Qed.

Example iso_new_year_2024 : Calendar.iso 2024 1 1 0 0 0 0 = 1704067200000.
Proof. reflexivity. Qed.

Example iso_offset :
  Calendar.iso 2024 1 2 0 0 0 300 = Calendar.iso 2024 1 1 19 0 0 0.
Proof. reflexivity. Qed.

(** Add three deselected units, add one more, take two away, toggle. *)
Example ledger_run :
  productsData
    (dispatchAll (initialState 0)
       [AddProductToCart 1 false 3; IncreaseProductQty 10 1 1;
        DecreaseProductQty 1 2; DeselectProduct 1])
  = [IProducts.mk 1 2 false].
Proof. reflexivity. Qed.

(** A sale price and a sold-out line in one cart: only the first counts, and
    the delivery is charged because a line is selected. *)
Example total_run :
  let s :=
    Sample.cart [Sample.soldOut; Sample.onSale]
      [IProducts.mk 1 2 true; IProducts.mk 2 3 true; IProducts.mk 5 1 true]
      Sample.courier in
  selectCartTotal s = 90 /\ cartTotal s = 100.
Proof. split; reflexivity. Qed.

Example order_run :
  productsInOrder
    [IProducts.mk 1 2 true; IProducts.mk 2 3 true; IProducts.mk 5 1 true]
    [Sample.soldOut; Sample.onSale] (Some Sample.courier)
  = [OrderLine.mk 2 3 true; OrderLine.mk 9 1 true].
Proof. reflexivity. Qed.

(** * Further properties of the slice *)

Lemma set_productsData_same (s : InitialStateType) :
  set_productsData (productsData s) s = s.
Proof. destruct s; reflexivity. Qed.

(** ** Lines of other products *)

Section OtherLines.
Context {A : Type} (f : A -> bool).

Lemma find_insert_other (l : list A) (i : nat) (old new : A) :
  l !! i = Some old -> f old = false -> f new = false ->
  List.find f (<[i := new]> l) = List.find f l.
Proof.
  revert i. induction l as [|a l IH]; intros [|i]; simpl; try discriminate.
  - intros [= ->] -> ->. reflexivity.
  - intros Hl Ho Hn. destruct (f a); [reflexivity|]. apply IH; assumption.
Qed.

Lemma find_push_other (l : list A) (new : A) :
  f new = false -> List.find f (l ++ [new]) = List.find f l.
Proof.
  intros Hn. induction l as [|a l IH]; simpl.
  - rewrite Hn. reflexivity.
  - destruct (f a); [reflexivity|exact IH].
Qed.

Lemma find_filter_keeps (g : A -> bool) (l : list A) :
  (forall x, f x = true -> g x = true) ->
  List.find f (List.filter g l) = List.find f l.
Proof.
  intros Hfg. induction l as [|a l IH]; simpl; [reflexivity|].
  destruct (f a) eqn:Hf.
  - rewrite (Hfg _ Hf). simpl. rewrite Hf. reflexivity.
  - destruct (g a); simpl; [rewrite Hf|]; exact IH.
Qed.

End OtherLines.

Lemma has_id_other (pid other qty : Z) (sel : bool) :
  other <> pid -> Lines.has_id other (IProducts.mk pid qty sel) = false.
Proof. intros H. unfold Lines.has_id. simpl. apply Z.eqb_neq. congruence. Qed.

Lemma has_id_other_line (pid other : Z) (line : IProducts.t) :
  other <> pid -> IProducts.id line = pid -> Lines.has_id other line = false.
Proof. intros H <-. unfold Lines.has_id. apply Z.eqb_neq. congruence. Qed.

Lemma findLine_filter_other (pid other : Z) (l : list IProducts.t) :
  other <> pid ->
  findLine other (List.filter (fun item => negb (Lines.has_id pid item)) l)
  = findLine other l.
Proof.
  intros H. unfold findLine. apply find_filter_keeps.
  intros x Hx. unfold Lines.has_id in *. apply Z.eqb_eq in Hx.
  apply negb_true_iff, Z.eqb_neq. congruence.
Qed.

Lemma findLine_deselect_other (pid other : Z) (l : list IProducts.t) :
  other <> pid ->
  findLine other (Lines.deselectProduct pid l) = findLine other l.
Proof.
  intros H. unfold findLine, Lines.deselectProduct.
  induction l as [|a l IH]; simpl; [reflexivity|].
  destruct (Lines.has_id pid a) eqn:Hp.
  - unfold Lines.has_id in Hp. apply Z.eqb_eq in Hp.
    rewrite (has_id_other_line pid other a H Hp).
    rewrite (has_id_other_line pid other
               (IProducts.mk (IProducts.id a) (IProducts.quantity a)
                  (negb (IProducts.selected a))) H Hp).
    exact IH.
  - destruct (Lines.has_id other a); [reflexivity|exact IH].
Qed.

(** An action on one product never changes the line of another product:
    whatever the arguments, the line [find] returns for any other id is the
    same before and after. *)
Theorem reducer_other_lines (s : InitialStateType) (a : LedgerAction)
    (pid other : Z) :
  target a = Some pid -> other <> pid ->
  findLine other (productsData (reducer s a))
  = findLine other (productsData s).
Proof.
  intros Ht Hne.
  destruct a as [p sel qty|units p qty|p qty|units p qty|p|p|];
    simpl in Ht; try discriminate; injection Ht as ->;
    cbn -[Lines.addProductToCart Lines.increaseProductQty
          Lines.decreaseProductQty Lines.setProductQty
          Lines.deselectProduct].
  - destruct (JS.findIndex (Lines.has_id pid) (productsData s)) as [i|] eqn:Hi.
    + destruct (found_line _ _ _ Hi) as (old & Hl & _ & Hid & _).
      rewrite (addProductToCart_found _ _ _ _ Hi Hl).
      apply (find_insert_other _ _ _ old); auto using has_id_other.
      eapply has_id_other_line; eauto.
    + rewrite (addProductToCart_absent _ _ Hi).
      apply find_push_other. apply has_id_other. exact Hne.
  - destruct (JS.findIndex (Lines.has_id pid) (productsData s)) as [i|] eqn:Hi.
    + destruct (found_line _ _ _ Hi) as (old & Hl & _ & Hid & _).
      rewrite (increaseProductQty_found _ _ _ _ Hi Hl).
      apply (find_insert_other _ _ _ old); auto using has_id_other.
      eapply has_id_other_line; eauto.
    + rewrite (increaseProductQty_absent _ _ Hi).
      apply find_push_other. apply has_id_other. exact Hne.
  - destruct (JS.findIndex (Lines.has_id pid) (productsData s)) as [i|] eqn:Hi.
    + destruct (found_line _ _ _ Hi) as (old & Hl & _ & Hid & _).
      rewrite (decreaseProductQty_found _ _ _ _ Hi Hl).
      destruct (IProducts.quantity old - qty <=? 0).
      * apply findLine_filter_other. exact Hne.
      * apply (find_insert_other _ _ _ old); auto using has_id_other.
        eapply has_id_other_line; eauto.
    + rewrite (decreaseProductQty_absent _ _ Hi). reflexivity.
  - destruct (JS.findIndex (Lines.has_id pid) (productsData s)) as [i|] eqn:Hi.
    + destruct (found_line _ _ _ Hi) as (old & Hl & _ & Hid & _).
      rewrite (setProductQty_found _ _ _ _ Hi Hl).
      destruct (qty <=? 0).
      * apply findLine_filter_other. exact Hne.
      * apply (find_insert_other _ _ _ old); auto using has_id_other.
        eapply has_id_other_line; eauto.
    + rewrite (setProductQty_absent _ _ Hi).
      destruct (qty <=? 0).
      * apply findLine_filter_other. exact Hne.
      * apply find_push_other. apply has_id_other. exact Hne.
  - apply findLine_deselect_other. exact Hne.
  - apply findLine_filter_other. exact Hne.
Qed.

Lemma reducer_other_lines_witness :
  findLine 2
    (productsData
       (reducer
          (set_productsData [IProducts.mk 1 4 true; IProducts.mk 2 3 false]
             (initialState 0))
          (DecreaseProductQty 1 9)))
  = Some (IProducts.mk 2 3 false).
Proof.
  rewrite (reducer_other_lines _ (DecreaseProductQty 1 9) 1 2);
    [reflexivity|reflexivity|lia].
Defined.

(** ** One line per product *)

Lemma unique_filter (f : IProducts.t -> bool) (l : list IProducts.t) :
  List.NoDup (ids l) -> List.NoDup (ids (List.filter f l)).
Proof.
  induction l as [|a l IH]; simpl; intros Hnd; [constructor|].
  inversion Hnd as [|? ? Hnotin Hnd']; subst.
  destruct (f a); simpl; [constructor|]; auto.
  intros Hin. apply Hnotin. unfold ids in *.
  apply List.in_map_iff in Hin. destruct Hin as (x & Hx & Hin).
  apply List.filter_In in Hin. apply List.in_map_iff. exists x. tauto.
Qed.

Lemma ids_deselect (pid : Z) (l : list IProducts.t) :
  ids (Lines.deselectProduct pid l) = ids l.
Proof.
  unfold ids, Lines.deselectProduct. rewrite List.map_map.
  apply List.map_ext. intros a. destruct (Lines.has_id pid a); reflexivity.
Qed.

Lemma reducer_unique (s : InitialStateType) (a : LedgerAction) :
  List.NoDup (ids (productsData s)) ->
  List.NoDup (ids (productsData (reducer s a))).
Proof.
  intros Hnd.
  assert (Hins : forall i old new,
            productsData s !! i = Some old ->
            IProducts.id new = IProducts.id old ->
            List.NoDup (ids (<[i := new]> (productsData s)))).
  { intros i old new Hl Hid. rewrite (ids_insert _ _ _ _ Hl Hid). exact Hnd. }
  assert (Hpush : forall new,
            JS.findIndex (Lines.has_id (IProducts.id new)) (productsData s)
            = None ->
            List.NoDup (ids (productsData s ++ [new]))).
  { intros new Habs. rewrite ids_push. apply NoDup_push; [exact Hnd|].
    apply absent_not_in_ids. exact Habs. }
  destruct a as [pid sel qty|units pid qty|pid qty|units pid qty|pid|pid|];
    cbn -[Lines.addProductToCart Lines.increaseProductQty
          Lines.decreaseProductQty Lines.setProductQty
          Lines.deselectProduct].
  - destruct (JS.findIndex (Lines.has_id pid) (productsData s)) as [i|] eqn:Hi.
    + destruct (found_line _ _ _ Hi) as (old & Hl & _ & Hid & _).
      rewrite (addProductToCart_found _ _ _ _ Hi Hl). eapply Hins; eauto.
    + rewrite (addProductToCart_absent _ _ Hi). apply Hpush. exact Hi.
  - destruct (JS.findIndex (Lines.has_id pid) (productsData s)) as [i|] eqn:Hi.
    + destruct (found_line _ _ _ Hi) as (old & Hl & _ & Hid & _).
      rewrite (increaseProductQty_found _ _ _ _ Hi Hl). eapply Hins; eauto.
    + rewrite (increaseProductQty_absent _ _ Hi). apply Hpush. exact Hi.
  - destruct (JS.findIndex (Lines.has_id pid) (productsData s)) as [i|] eqn:Hi.
    + destruct (found_line _ _ _ Hi) as (old & Hl & _ & Hid & _).
      rewrite (decreaseProductQty_found _ _ _ _ Hi Hl).
      destruct (IProducts.quantity old - qty <=? 0).
      * apply unique_filter. exact Hnd.
      * eapply Hins; eauto.
    + rewrite (decreaseProductQty_absent _ _ Hi). exact Hnd.
  - destruct (JS.findIndex (Lines.has_id pid) (productsData s)) as [i|] eqn:Hi.
    + destruct (found_line _ _ _ Hi) as (old & Hl & _ & Hid & _).
      rewrite (setProductQty_found _ _ _ _ Hi Hl).
      destruct (qty <=? 0).
      * apply unique_filter. exact Hnd.
      * eapply Hins; eauto.
    + rewrite (setProductQty_absent _ _ Hi).
      destruct (qty <=? 0).
      * apply unique_filter. exact Hnd.
      * apply Hpush. exact Hi.
  - rewrite ids_deselect. exact Hnd.
  - apply unique_filter. exact Hnd.
  - constructor.
Qed.

(** No sequence of ledger actions, whatever its arguments, gives a product a
    second line: where the product ids of the cart lines are pairwise
    different before, they are afterwards. *)
Theorem dispatchAll_unique (acts : list LedgerAction) (s : InitialStateType) :
  List.NoDup (ids (productsData s)) ->
  List.NoDup (ids (productsData (dispatchAll s acts))).
Proof.
  unfold dispatchAll. revert s.
  induction acts as [|a acts IH]; intros s Hnd; simpl; [exact Hnd|].
  apply IH. apply reducer_unique. exact Hnd.
Qed.

Lemma dispatchAll_unique_witness :
  List.NoDup
    (ids
       (productsData
          (dispatchAll (initialState 0)
             [SetProductQty 0 1 1; IncreaseProductQty 0 1 (-4);
              AddProductToCart 1 false (-2); AddProductToCart 2 true 5;
              IncreaseProductQty 3 2 1; DecreaseProductQty 2 9;
              SetProductQty 9 2 2]))).
Proof. apply dispatchAll_unique. constructor. Defined.

(** ** removeProduct and deselectProduct *)

(** After [removeProduct] the product is not in the cart and its quantity
    reads 0; removing it again changes nothing; nothing but the list of
    lines is touched. *)
Theorem removeProduct_spec (s : InitialStateType) (pid : Z) :
  let s' := removeProduct pid s in
  selectIsInCart s' pid = false /\
  selectCartItemWithIdLength s' pid = 0 /\
  removeProduct pid s' = s' /\
  (selectIsInCart s pid = false -> s' = s) /\
  s' = set_productsData (productsData s') s.
Proof.
  cbv zeta. unfold removeProduct, selectIsInCart, selectCartItemWithIdLength,
    Lines.removeProduct. cbn [productsData set_productsData].
  set (keep := fun item => negb (Lines.has_id pid item)).
  assert (Hidem : forall l, List.filter keep (List.filter keep l)
                            = List.filter keep l).
  { induction l as [|a l IH]; simpl; [reflexivity|].
    destruct (keep a) eqn:Ha; simpl; [rewrite Ha, IH|]; auto. }
  split; [apply some_filter_out|].
  split; [unfold findLine, keep; rewrite find_filter_out; reflexivity|].
  split.
  { unfold set_productsData. cbn. rewrite Hidem. reflexivity. }
  split; [|reflexivity].
  intros Habs. apply some_false_Forall in Habs.
  replace (List.filter keep (productsData s)) with (productsData s).
  - apply set_productsData_same.
  - symmetry. induction Habs as [|a l Ha _ IH]; simpl; [reflexivity|].
    unfold keep at 1. rewrite Ha. simpl. f_equal. exact IH.
Qed.

Lemma deselect_twice (pid : Z) (l : list IProducts.t) :
  Lines.deselectProduct pid (Lines.deselectProduct pid l) = l.
Proof.
  unfold Lines.deselectProduct. rewrite List.map_map.
  rewrite <- (List.map_id l) at 2. apply List.map_ext. intros a.
  destruct (Lines.has_id pid a) eqn:Ha.
  - unfold Lines.has_id in *. simpl. rewrite Ha.
    destruct a as [i q sel]. simpl. rewrite negb_involutive. reflexivity.
  - rewrite Ha. reflexivity.
Qed.

Lemma findLine_deselect (pid : Z) (l : list IProducts.t) :
  findLine pid (Lines.deselectProduct pid l)
  = (fun line =>
       IProducts.mk (IProducts.id line) (IProducts.quantity line)
         (negb (IProducts.selected line))) <$> findLine pid l.
Proof.
  unfold findLine, Lines.deselectProduct.
  induction l as [|a l IH]; simpl; [reflexivity|].
  destruct (Lines.has_id pid a) eqn:Ha.
  - unfold Lines.has_id in *. simpl. rewrite Ha. reflexivity.
  - rewrite Ha. exact IH.
Qed.

(** [deselectProduct] flips the flag of the product's line and keeps its id
    and quantity; the quantity read for any product is unchanged; toggling
    twice gives back the state; toggling a product that is not in the cart
    changes nothing. *)
Theorem deselectProduct_spec (s : InitialStateType) (pid : Z) :
  let s' := deselectProduct pid s in
  findLine pid (productsData s')
  = (fun line =>
       IProducts.mk (IProducts.id line) (IProducts.quantity line)
         (negb (IProducts.selected line))) <$> findLine pid (productsData s)
  /\
  (forall other, selectCartItemWithIdLength s' other
                 = selectCartItemWithIdLength s other) /\
  length (productsData s') = length (productsData s) /\
  deselectProduct pid s' = s /\
  (selectIsInCart s pid = false -> s' = s).
Proof.
  cbv zeta. unfold deselectProduct, selectCartItemWithIdLength, selectIsInCart.
  cbn [productsData set_productsData].
  split; [apply findLine_deselect|].
  split.
  { intros other. destruct (Z.eq_dec other pid) as [->|Hne].
    - rewrite findLine_deselect.
      destruct (findLine pid (productsData s)); reflexivity.
    - rewrite findLine_deselect_other by exact Hne. reflexivity. }
  split; [unfold Lines.deselectProduct; apply List.length_map|].
  split.
  { unfold set_productsData. cbn. rewrite deselect_twice. destruct s; reflexivity. }
  intros Habs. apply some_false_Forall in Habs.
  replace (Lines.deselectProduct pid (productsData s)) with (productsData s).
  - apply set_productsData_same.
  - symmetry. unfold Lines.deselectProduct.
    induction Habs as [|a l Ha _ IH]; simpl; [reflexivity|].
    rewrite Ha. f_equal. exact IH.
Qed.

(** ** How the quantity reducers compose *)

Section IndexFacts.
Context {A : Type} (f : A -> bool).

Lemma findIndex_insert_same (l : list A) (i : nat) (y : A) :
  JS.findIndex f l = Some i -> f y = true ->
  JS.findIndex f (<[i := y]> l) = Some i.
Proof.
  revert i. induction l as [|a l IH]; intros i; simpl; [discriminate|].
  destruct (f a) eqn:Ha.
  - intros [= <-] Hy. simpl. rewrite Hy. reflexivity.
  - destruct (JS.findIndex f l) as [j|] eqn:Hj; simpl; [|discriminate].
    intros [= <-] Hy. simpl. rewrite Ha, (IH j eq_refl Hy). reflexivity.
Qed.

Lemma findIndex_push (l : list A) (x : A) :
  JS.findIndex f l = None -> f x = true ->
  JS.findIndex f (l ++ [x]) = Some (length l).
Proof.
  induction l as [|a l IH]; simpl; intros Hn Hx.
  - rewrite Hx. reflexivity.
  - destruct (f a); [discriminate|].
    destruct (JS.findIndex f l); simpl in *; [discriminate|].
    rewrite (IH eq_refl Hx). reflexivity.
Qed.

Lemma filter_out_push (l : list A) (x : A) :
  JS.findIndex f l = None -> f x = true ->
  List.filter (fun a => negb (f a)) (l ++ [x]) = l.
Proof.
  induction l as [|a l IH]; simpl; intros Hn Hx.
  - rewrite Hx. reflexivity.
  - destruct (f a); [discriminate|]. simpl.
    destruct (JS.findIndex f l); simpl in *; [discriminate|].
    rewrite (IH eq_refl Hx). reflexivity.
Qed.

Lemma filter_out_twice (l : list A) :
  List.filter (fun a => negb (f a)) (List.filter (fun a => negb (f a)) l)
  = List.filter (fun a => negb (f a)) l.
Proof.
  induction l as [|a l IH]; simpl; [reflexivity|].
  destruct (f a) eqn:Ha; simpl; [|rewrite Ha; simpl; rewrite IH]; auto.
Qed.

Lemma filter_out_absent (l : list A) :
  List.find f l = None -> List.filter (fun a => negb (f a)) l = l.
Proof.
  induction l as [|a l IH]; simpl; [reflexivity|].
  destruct (f a); [discriminate|]. simpl. intros H. f_equal. auto.
Qed.

Lemma findIndex_filter_out (l : list A) :
  JS.findIndex f (List.filter (fun a => negb (f a)) l) = None.
Proof. apply find_None_findIndex, find_filter_out. Qed.

End IndexFacts.

Lemma lines_setProductQty_twice (units pid qty : Z) (l : list IProducts.t) :
  Lines.setProductQty units pid qty (Lines.setProductQty units pid qty l)
  = Lines.setProductQty units pid qty l.
Proof.
  destruct (JS.findIndex (Lines.has_id pid) l) as [i|] eqn:Hi.
  - destruct (found_line _ _ _ Hi) as (old & Hl & _ & _ & _).
    rewrite (setProductQty_found _ _ _ _ Hi Hl).
    destruct (qty <=? 0) eqn:Hq.
    + rewrite (setProductQty_absent _ _ (findIndex_filter_out _ _)), Hq.
      apply filter_out_twice.
    + set (new := IProducts.mk pid (Z.min qty units) (IProducts.selected old)).
      assert (Hi' : JS.findIndex (Lines.has_id pid) (<[i := new]> l) = Some i)
        by (apply findIndex_insert_same; [exact Hi|apply has_id_mk]).
      assert (Hl' : <[i := new]> l !! i = Some new)
        by (apply list_lookup_insert_eq; eapply lookup_lt_Some; eauto).
      rewrite (setProductQty_found _ _ _ _ Hi' Hl'), Hq.
      apply list_insert_insert_eq.
  - rewrite (setProductQty_absent _ _ Hi).
    destruct (qty <=? 0) eqn:Hq.
    + rewrite (setProductQty_absent _ _ (findIndex_filter_out _ _)), Hq.
      apply filter_out_twice.
    + set (new := IProducts.mk pid (Z.min qty units) true).
      assert (Hi' : JS.findIndex (Lines.has_id pid) (l ++ [new])
                    = Some (length l))
        by (apply findIndex_push; [exact Hi|apply has_id_mk]).
      assert (Hl' : (l ++ [new]) !! length l = Some new)
        by (apply list_lookup_middle; reflexivity).
      rewrite (setProductQty_found _ _ _ _ Hi' Hl'), Hq.
      apply list_insert_id. exact Hl'.
Qed.

(** Setting a quantity is idempotent: dispatching the same [setProductQty]
    a second time leaves the state as the first dispatch left it, whether
    the line was rewritten, inserted or removed. *)
Theorem setProductQty_idempotent (s : InitialStateType) (units pid qty : Z) :
  setProductQty units pid qty (setProductQty units pid qty s)
  = setProductQty units pid qty s.
Proof.
  unfold setProductQty, set_productsData. cbn.
  rewrite lines_setProductQty_twice. reflexivity.
Qed.

(** Other ways to remove a line.  [setProductQty] with a quantity of 0 or
    less is [removeProduct]; so is [decreaseProductQty] by at least the
    quantity the line holds.  [decreaseProductQty] of a product that is not
    in the cart changes nothing. *)
Theorem removal_equivalences (s : InitialStateType) (pid qty : Z) :
  (forall units, qty <= 0 ->
     setProductQty units pid qty s = removeProduct pid s) /\
  (forall old,
     findLine pid (productsData s) = Some old ->
     IProducts.quantity old <= qty ->
     decreaseProductQty pid qty s = removeProduct pid s) /\
  (selectIsInCart s pid = false -> decreaseProductQty pid qty s = s).
Proof.
  unfold setProductQty, decreaseProductQty, removeProduct, selectIsInCart.
  split; [|split].
  - intros units Hq. f_equal. unfold Lines.setProductQty, Lines.removeProduct.
    apply Z.leb_le in Hq. rewrite Hq. reflexivity.
  - intros old Hfind Hq. f_equal.
    pose proof (findLine_cases pid (productsData s)) as H.
    rewrite Hfind in H. destruct H as (i & Hi & Hl).
    rewrite (decreaseProductQty_found _ _ _ _ Hi Hl).
    replace (IProducts.quantity old - qty <=? 0) with true
      by (symmetry; apply Z.leb_le; lia).
    reflexivity.
  - intros Habs. rewrite some_find in Habs.
    apply bool_decide_eq_false in Habs.
    rewrite decreaseProductQty_absent; [apply set_productsData_same|].
    apply find_None_findIndex.
    destruct (List.find _ (productsData s)) eqn:Hf; [|reflexivity].
    exfalso. apply Habs. eauto.
Qed.

(** Putting a product that is not in the cart into it, by any of the three
    reducers that insert, and removing it again gives back the state. *)
Theorem insert_remove_round_trip (s : InitialStateType) (pid : Z) :
  selectIsInCart s pid = false ->
  (forall sel qty, removeProduct pid (addProductToCart pid sel qty s) = s) /\
  (forall units qty,
     removeProduct pid (increaseProductQty units pid qty s) = s) /\
  (forall units qty,
     removeProduct pid (setProductQty units pid qty s) = s).
Proof.
  intros Habs. unfold selectIsInCart in Habs. rewrite some_find in Habs.
  apply bool_decide_eq_false in Habs.
  assert (Hi : JS.findIndex (Lines.has_id pid) (productsData s) = None).
  { apply find_None_findIndex.
    destruct (List.find _ (productsData s)) eqn:Hf; [|reflexivity].
    exfalso. apply Habs. eauto. }
  assert (Hkeep : List.filter (fun item => negb (Lines.has_id pid item))
                    (productsData s) = productsData s).
  { apply filter_out_absent, findIndex_None. exact Hi. }
  unfold removeProduct, addProductToCart, increaseProductQty, setProductQty,
    Lines.removeProduct.
  cbn [productsData set_productsData].
  split; [|split]; intros.
  - rewrite (addProductToCart_absent _ _ Hi).
    rewrite filter_out_push by (auto using has_id_mk).
    destruct s; reflexivity.
  - rewrite (increaseProductQty_absent _ _ Hi).
    rewrite filter_out_push by (auto using has_id_mk).
    destruct s; reflexivity.
  - rewrite (setProductQty_absent _ _ Hi).
    destruct (qty <=? 0).
    + rewrite filter_out_twice, Hkeep. destruct s; reflexivity.
    + rewrite filter_out_push by (auto using has_id_mk).
      destruct s; reflexivity.
Qed.

Lemma insert_remove_round_trip_witness :
  let s := set_productsData [IProducts.mk 1 4 true] (initialState 0) in
  removeProduct 2 (addProductToCart 2 false 3 s) = s /\
  removeProduct 2 (increaseProductQty 5 2 3 s) = s /\
  removeProduct 2 (setProductQty 5 2 3 s) = s.
Proof.
  pose proof (insert_remove_round_trip
                (set_productsData [IProducts.mk 1 4 true] (initialState 0))
                2 eq_refl) as (Ha & Hi & Hs).
  split; [exact (Ha false 3)|]. split; [exact (Hi 5 3)|exact (Hs 5 3)].
Defined.

(** Adding units to a line that is in the cart: the quantity read afterwards
    is the old quantity plus the increment, capped at the stock count, so it
    never exceeds the stock count.  For a product that is not in the cart
    the increment and the stock count are ignored: the quantity is 1. *)
Theorem increaseProductQty_quantity (s : InitialStateType)
    (units pid qty : Z) :
  let s' := increaseProductQty units pid qty s in
  selectIsInCart s' pid = true /\
  match findLine pid (productsData s) with
  | Some old =>
      selectCartItemWithIdLength s' pid
      = Z.min (IProducts.quantity old + qty) units /\
      selectCartItemWithIdLength s' pid <= units /\
      length (productsData s') = length (productsData s)
  | None =>
      selectCartItemWithIdLength s' pid = 1 /\
      productsData s' = productsData s ++ [IProducts.mk pid 1 true]
  end.
Proof.
  cbv zeta.
  unfold increaseProductQty, selectIsInCart, selectCartItemWithIdLength.
  cbn [productsData set_productsData]. rewrite some_find.
  pose proof (findLine_cases pid (productsData s)) as H.
  destruct (findLine pid (productsData s)) as [old|] eqn:Hfind.
  - destruct H as (i & Hi & Hl).
    rewrite (increaseProductQty_found _ _ _ _ Hi Hl).
    unfold findLine.
    rewrite (find_insert_at_findIndex _ _ _ _ Hi (has_id_mk _ _ _)).
    cbn [IProducts.quantity].
    split; [apply bool_decide_eq_true; eauto|].
    split; [reflexivity|]. split; [lia|apply length_insert].
  - rewrite (increaseProductQty_absent _ _ H).
    unfold findLine in *. rewrite find_push by exact Hfind.
    rewrite has_id_mk. cbn [IProducts.quantity].
    split; [apply bool_decide_eq_true; eauto|]. split; reflexivity.
Qed.

(** Adding [qty] units and taking [qty] units away again.  The line ends
    with the old quantity when the stock count did not cap the addition, and
    with [units - qty] when it did (the line is removed if that is 0 or
    less); it is selected in either case.  So for a selected line of at
    least one unit and an addition within the stock count the state is
    restored. *)
Theorem increase_decrease_round_trip (s : InitialStateType)
    (units pid qty : Z) (old : IProducts.t) :
  findLine pid (productsData s) = Some old ->
  let s' := decreaseProductQty pid qty (increaseProductQty units pid qty s) in
  findLine pid (productsData s')
  = (if Z.min (IProducts.quantity old + qty) units - qty <=? 0 then None
     else Some (IProducts.mk pid
                  (Z.min (IProducts.quantity old + qty) units - qty) true))
  /\
  (IProducts.selected old = true -> 1 <= IProducts.quantity old ->
   IProducts.quantity old + qty <= units -> s' = s).
Proof.
  intros Hfind. cbv zeta.
  pose proof (findLine_cases pid (productsData s)) as H.
  rewrite Hfind in H. destruct H as (i & Hi & Hl).
  destruct (found_line _ _ _ Hi) as (old' & Hl' & _ & Hid & _).
  assert (old' = old) by congruence. subst old'.
  unfold increaseProductQty, decreaseProductQty.
  cbn [productsData set_productsData].
  rewrite (increaseProductQty_found _ _ _ _ Hi Hl).
  set (mid := IProducts.mk pid (Z.min (IProducts.quantity old + qty) units)
                true).
  assert (Hi' : JS.findIndex (Lines.has_id pid)
                  (<[i := mid]> (productsData s)) = Some i)
    by (apply findIndex_insert_same; [exact Hi|apply has_id_mk]).
  assert (Hlm : <[i := mid]> (productsData s) !! i = Some mid)
    by (apply list_lookup_insert_eq; eapply lookup_lt_Some; eauto).
  rewrite (decreaseProductQty_found _ _ _ _ Hi' Hlm).
  cbn [mid IProducts.quantity IProducts.selected]. split.
  - destruct (Z.min (IProducts.quantity old + qty) units - qty <=? 0).
    + apply find_filter_out.
    + apply find_insert_at_findIndex; [exact Hi'|apply has_id_mk].
  - intros Hsel Hq Hu.
    replace (Z.min (IProducts.quantity old + qty) units - qty)
      with (IProducts.quantity old) by lia.
    replace (IProducts.quantity old <=? 0) with false
      by (symmetry; apply Z.leb_gt; lia).
    rewrite list_insert_insert_eq.
    rewrite list_insert_id.
    + destruct s; reflexivity.
    + rewrite Hl. f_equal. destruct old as [oi oq os]. simpl in *. congruence.
Qed.

Lemma increase_decrease_round_trip_witness :
  let s :=
    set_productsData [IProducts.mk 1 4 true; IProducts.mk 2 3 true]
      (initialState 0) in
  decreaseProductQty 2 5 (increaseProductQty 10 2 5 s) = s.
Proof.
  apply (increase_decrease_round_trip
           (set_productsData [IProducts.mk 1 4 true; IProducts.mk 2 3 true]
              (initialState 0))
           10 2 5 (IProducts.mk 2 3 true) eq_refl);
    [reflexivity|simpl; lia|simpl; lia].
Defined.

(** ** The quantity selector *)

(** [QuantitySelector] never shows its controls for a product that is not in
    the cart, and in a cart whose lines all hold at least one unit it shows
    them exactly for the products that are in the cart. *)
Theorem quantitySelectorShown_spec (s : InitialStateType) (pid : Z) :
  (quantitySelectorShown s pid = true -> selectIsInCart s pid = true) /\
  (Forall (fun line => 1 <= IProducts.quantity line) (productsData s) ->
   quantitySelectorShown s pid = selectIsInCart s pid).
Proof.
  unfold quantitySelectorShown, selectCartItemWithIdLength, selectIsInCart.
  rewrite some_find. fold (findLine pid (productsData s)).
  destruct (findLine pid (productsData s)) as [line|] eqn:Hfind.
  - split.
    + intros _. apply bool_decide_eq_true. eauto.
    + intros Hall. rewrite bool_decide_eq_true_2 by eauto.
      unfold findLine in Hfind. apply List.find_some in Hfind.
      destruct Hfind as [Hin _].
      rewrite List.Forall_forall in Hall. specialize (Hall _ Hin).
      rewrite or_num_defined by (left; reflexivity).
      apply negb_true_iff, Z.leb_gt. lia.
  - split.
    + simpl. discriminate.
    + intros _. rewrite bool_decide_eq_false_2; [reflexivity|].
      intros [? ?]. discriminate.
Qed.

(** ** What the ledger actions leave alone *)

Lemma reducer_frame (s : InitialStateType) (a : LedgerAction) :
  delivery (reducer s a) = delivery s /\
  deliveryData (reducer s a) = deliveryData s /\
  currency (reducer s a) = currency s /\
  transitionId (reducer s a) = transitionId s /\
  total (reducer s a) = total s /\
  version (reducer s a) = version s /\
  products (reducer s a)
  = match a with RemoveAllProducts => [] | _ => products s end.
Proof. destruct a; repeat split. Qed.

(** No sequence of ledger actions changes the delivery product, the delivery
    data, the currency, the transition id, the stored total or the version.
    The product snapshots are left as they are unless the sequence contains
    [removeAllProducts], and are empty if it does. *)
Theorem dispatchAll_frame (acts : list LedgerAction) (s : InitialStateType) :
  let s' := dispatchAll s acts in
  delivery s' = delivery s /\
  deliveryData s' = deliveryData s /\
  currency s' = currency s /\
  transitionId s' = transitionId s /\
  total s' = total s /\
  version s' = version s /\
  products s' = if existsb (fun a => match a with
                                     | RemoveAllProducts => true
                                     | _ => false
                                     end) acts
                then [] else products s.
Proof.
  cbv zeta. unfold dispatchAll. revert s.
  induction acts as [|a acts IH]; intros s; simpl; [repeat split|].
  destruct (IH (reducer s a)) as (H1 & H2 & H3 & H4 & H5 & H6 & H7).
  destruct (reducer_frame s a) as (F1 & F2 & F3 & F4 & F5 & F6 & F7).
  repeat split; try congruence.
  rewrite H7, F7.
  destruct a; simpl; try reflexivity.
  destruct (existsb _ acts); reflexivity.
Qed.

(** * Further properties of the totals *)

Lemma sum_contribution (ps : list IProductsEntity.t) (l : list IProducts.t) :
  sumZ (List.map (lineAmount ps) (List.filter (qualifies ps) l))
  = sumZ (List.map (contribution ps) l).
Proof.
  unfold contribution. induction l as [|a l IH]; simpl; [reflexivity|].
  destruct (qualifies ps a); simpl; rewrite IH; reflexivity.
Qed.

Lemma selectCartTotal_contributions (s : InitialStateType) :
  selectCartTotal s
  = sumZ (List.map (contribution (products s)) (productsData s)).
Proof.
  unfold selectCartTotal. rewrite fold_addLine, sum_contribution. lia.
Qed.

Lemma sum_insert (c : IProducts.t -> Z) (l : list IProducts.t) (i : nat)
    (old new : IProducts.t) :
  l !! i = Some old ->
  sumZ (List.map c (<[i := new]> l)) = sumZ (List.map c l) - c old + c new.
Proof.
  revert i. induction l as [|a l IH]; intros [|i]; simpl; try discriminate.
  - intros [= ->]. lia.
  - intros Hl. rewrite (IH _ Hl). lia.
Qed.

Lemma sum_push (c : IProducts.t -> Z) (l : list IProducts.t)
    (new : IProducts.t) :
  sumZ (List.map c (l ++ [new])) = sumZ (List.map c l) + c new.
Proof. induction l as [|a l IH]; simpl; lia. Qed.

(** How the subtotal follows an increment.  For a product that is in the
    cart, the line's old share is replaced by unit price times the new
    quantity if the product is in stock (the line is selected afterwards)
    and by nothing if it is not; for a product that is not in the cart, one
    unit is added if it is in stock.  So for a selected line of an in-stock
    product, an increment of [qty] within the stock count raises the
    subtotal by [qty] times the unit price. *)
Theorem selectCartTotal_after_increase (s : InitialStateType)
    (units pid qty : Z) :
  let ps := products s in
  let p := findProduct pid ps in
  let s' := increaseProductQty units pid qty s in
  match findLine pid (productsData s) with
  | Some old =>
      selectCartTotal s'
      = selectCartTotal s - contribution ps old
        + (if isInStock p
           then unitPrice p * Z.min (IProducts.quantity old + qty) units
           else 0)
      /\
      (IProducts.selected old = true -> isInStock p = true ->
       IProducts.quantity old + qty <= units ->
       selectCartTotal s' = selectCartTotal s + unitPrice p * qty)
  | None =>
      selectCartTotal s'
      = selectCartTotal s + (if isInStock p then unitPrice p else 0)
  end.
Proof.
  cbv zeta. rewrite !selectCartTotal_contributions.
  unfold increaseProductQty. cbn [productsData products set_productsData].
  pose proof (findLine_cases pid (productsData s)) as H.
  destruct (findLine pid (productsData s)) as [old|] eqn:Hfind.
  - destruct H as (i & Hi & Hl).
    destruct (found_line _ _ _ Hi) as (old' & Hl' & _ & Hid & _).
    assert (old' = old) by congruence. subst old'.
    rewrite (increaseProductQty_found _ _ _ _ Hi Hl).
    rewrite (sum_insert _ _ _ _ _ Hl).
    unfold contribution at 2. unfold qualifies, lineAmount.
    cbn [IProducts.selected IProducts.id IProducts.quantity andb].
    split; [reflexivity|].
    intros Hsel Hin Hu.
    unfold contribution, qualifies, lineAmount.
    cbn [IProducts.selected IProducts.id IProducts.quantity].
    rewrite Hsel, Hid, Hin.
    cbn [andb]. replace (Z.min (IProducts.quantity old + qty) units)
      with (IProducts.quantity old + qty) by lia.
    lia.
  - rewrite (increaseProductQty_absent _ _ H), sum_push.
    unfold contribution, qualifies, lineAmount.
    cbn [IProducts.selected IProducts.id IProducts.quantity andb].
    destruct (isInStock _); lia.
Qed.

(** Without product snapshots nothing counts as in stock: the subtotal is 0
    whatever the cart holds, and the total shown is the delivery price as
    soon as a line is selected. *)
Theorem total_without_snapshots (s : InitialStateType) :
  products s = [] ->
  selectCartTotal s = 0 /\
  cartTotal s = if hasProducts s then deliveryPrice (delivery s) else 0.
Proof.
  intros Hps.
  assert (H0 : selectCartTotal s = 0).
  { rewrite selectCartTotal_contributions, Hps.
    induction (productsData s) as [|a l IH]; simpl; [reflexivity|].
    rewrite IH. unfold contribution, qualifies. simpl.
    rewrite andb_false_r. reflexivity. }
  split; [exact H0|].
  unfold cartTotal. rewrite H0. destruct (hasProducts s); reflexivity.
Qed.

Lemma total_without_snapshots_witness :
  selectCartTotal (Sample.cart [] Sample.twoOfProduct1 Sample.courier) = 0 /\
  cartTotal (Sample.cart [] Sample.twoOfProduct1 Sample.courier) = 10.
Proof.
  exact (total_without_snapshots
           (Sample.cart [] Sample.twoOfProduct1 Sample.courier) eq_refl).
Defined.

Lemma firstNonzero_nonneg (l : list (option Z)) :
  Forall nonNegative l -> 0 <= firstNonzero l.
Proof.
  induction 1 as [|v l Hv _ IH]; simpl; [lia|].
  destruct v as [n|]; [|exact IH].
  destruct (n =? 0); [exact IH|exact Hv].
Qed.

Lemma deliveryPrice_firstNonzero (d : IProductsEntity.t) :
  deliveryPrice d
  = firstNonzero [IProductsEntity.price_value d; IProductsEntity.price d].
Proof.
  unfold deliveryPrice, JS.or, JS.or_num, JS.truthy. cbn [firstNonzero].
  destruct (IProductsEntity.price_value d) as [a|];
    [destruct (a =? 0) eqn:Ha|];
    (destruct (IProductsEntity.price d) as [b|];
       [destruct (b =? 0) eqn:Hb|]);
    repeat (progress (cbn; rewrite ?Ha, ?Hb)); try reflexivity;
    apply Z.eqb_eq in Hb; congruence.
Qed.

Lemma contribution_nonneg (ps : list IProductsEntity.t) (line : IProducts.t) :
  Forall pricesNonNegative ps -> 0 <= IProducts.quantity line ->
  0 <= contribution ps line.
Proof.
  intros Hps Hq. unfold contribution, lineAmount.
  destruct (qualifies ps line); [|lia].
  destruct (findProduct (IProducts.id line) ps) as [e|] eqn:Hfind;
    [|simpl; lia].
  unfold findProduct in Hfind. apply List.find_some in Hfind.
  destruct Hfind as [Hin _]. rewrite List.Forall_forall in Hps.
  destruct (Hps _ Hin) as (Hs & Hp & Hpr).
  rewrite unitPrice_firstNonzero.
  apply Z.mul_nonneg_nonneg; [|exact Hq].
  apply firstNonzero_nonneg. repeat constructor; assumption.
Qed.

(** With prices that are not negative and quantities that are not negative,
    the subtotal is not negative and the total shown is never below it. *)
Theorem totals_nonnegative (s : InitialStateType) :
  Forall pricesNonNegative (products s) ->
  pricesNonNegative (delivery s) ->
  Forall (fun line => 0 <= IProducts.quantity line) (productsData s) ->
  0 <= selectCartTotal s <= cartTotal s.
Proof.
  intros Hps (_ & Hdp & Hdpr) Hq.
  assert (H0 : 0 <= selectCartTotal s).
  { rewrite selectCartTotal_contributions.
    induction Hq as [|a l Ha _ IH]; simpl; [lia|].
    pose proof (contribution_nonneg _ a Hps Ha). lia. }
  split; [exact H0|].
  unfold cartTotal. destruct (hasProducts s) eqn:Hhas; simpl.
  - assert (0 <= deliveryPrice (delivery s)); [|lia].
    rewrite deliveryPrice_firstNonzero. apply firstNonzero_nonneg.
    repeat constructor; assumption.
  - unfold selectCartTotal. rewrite fold_addLine.
    rewrite (filter_qualifies_unselected _ _ Hhas). simpl. lia.
Qed.

Lemma totals_nonnegative_witness :
  0 <= selectCartTotal
         (Sample.cart [Sample.soldOut; Sample.onSale]
            [IProducts.mk 1 2 true; IProducts.mk 2 3 true] Sample.courier)
    <= cartTotal
         (Sample.cart [Sample.soldOut; Sample.onSale]
            [IProducts.mk 1 2 true; IProducts.mk 2 3 true] Sample.courier).
Proof.
  apply totals_nonnegative.
  - repeat constructor; simpl; lia.
  - repeat split; simpl; lia.
  - repeat constructor; simpl; lia.
Defined.

(** ** The order table of the payment page *)

Lemma orderProductRow_contribution (ps : list IProductsEntity.t)
    (line : IProducts.t) :
  match orderProductRow ps line with
  | Some r =>
      qualifies ps line = true /\ rowTotal r = lineAmount ps line /\
      OrderRow.quantity r = IProducts.quantity line
  | None => qualifies ps line = false
  end.
Proof.
  unfold orderProductRow, qualifies, lineAmount, rowTotal.
  destruct (findProduct (IProducts.id line) ps) as [e|] eqn:Hfind.
  - destruct (IProducts.selected line); simpl; [|reflexivity].
    destruct (isInStock (Some e)); simpl; [|reflexivity].
    repeat split.
  - unfold isInStock. simpl. apply andb_false_r.
Qed.

Lemma rows_sum (ps : list IProductsEntity.t) (l : list IProducts.t) :
  sumZ (List.map rowTotal (omap (orderProductRow ps) l))
  = sumZ (List.map (contribution ps) l).
Proof.
  induction l as [|a l IH]; [reflexivity|].
  change (omap (orderProductRow ps) (a :: l))
    with (match orderProductRow ps a with
          | Some r => r :: omap (orderProductRow ps) l
          | None => omap (orderProductRow ps) l
          end).
  change (sumZ (List.map (contribution ps) (a :: l)))
    with (contribution ps a + sumZ (List.map (contribution ps) l)).
  pose proof (orderProductRow_contribution ps a) as H.
  unfold contribution at 1.
  destruct (orderProductRow ps a) as [r|].
  - destruct H as (-> & Hr & _).
    change (sumZ (List.map rowTotal (r :: omap (orderProductRow ps) l)))
      with (rowTotal r
            + sumZ (List.map rowTotal (omap (orderProductRow ps) l))).
    rewrite Hr, IH. reflexivity.
  - rewrite H, IH. reflexivity.
Qed.

Lemma deliveryRowAmount_own (d : IProductsEntity.t) :
  deliveryRowAmount None d = deliveryPrice d /\
  deliveryRowAmount (Some d) d = deliveryPrice d.
Proof.
  unfold deliveryRowAmount, deliveryPrice, JS.or, JS.or_num, JS.truthy,
    JS.chain.
  destruct (IProductsEntity.price_value d) as [a|];
    [destruct (a =? 0) eqn:Ha|];
    (destruct (IProductsEntity.price d) as [b|];
       [destruct (b =? 0) eqn:Hb|]);
    repeat (progress (cbn; rewrite ?Ha, ?Hb)); split; reflexivity.
Qed.

(** The total agrees with the order table above it.  When the table is fed
    the slice's own snapshots and delivery (or is left to fall back to them),
    the rows it shows add up, unit price times quantity, to the subtotal;
    and whenever [PaymentMethod] shows the table, the total shown is the sum
    of the product rows plus the amount of the delivery row.  When it shows
    "No items in cart" instead, the total is 0. *)
Theorem payment_table_matches_total (s : InitialStateType)
    (productsProp : option (list IProductsEntity.t))
    (deliveryProp : option IProductsEntity.t) :
  productsProp = None \/ productsProp = Some (products s) ->
  deliveryProp = None \/ deliveryProp = Some (delivery s) ->
  sumZ (List.map rowTotal (orderProductRows productsProp s))
  = selectCartTotal s /\
  match paymentMethodTable productsProp deliveryProp s with
  | Some (rows, deliveryAmount) =>
      cartTotal s = sumZ (List.map rowTotal rows) + deliveryAmount
  | None => cartTotal s = 0
  end.
Proof.
  intros Hp Hd.
  assert (Hrows : sumZ (List.map rowTotal (orderProductRows productsProp s))
                  = selectCartTotal s).
  { rewrite selectCartTotal_contributions. unfold orderProductRows,
      selectCartItems, selectCartData.
    destruct Hp as [-> | ->]; apply rows_sum. }
  split; [exact Hrows|].
  unfold paymentMethodTable, cartTotal, hasProducts.
  destruct (JS.some IProducts.selected (productsData s)); simpl;
    [|reflexivity].
  rewrite Hrows. f_equal.
  destruct (deliveryRowAmount_own (delivery s)) as [Hn Hs].
  destruct Hd as [-> | ->]; congruence.
Qed.

Lemma payment_table_matches_total_witness :
  let s :=
    Sample.cart [Sample.soldOut; Sample.onSale]
      [IProducts.mk 1 2 true; IProducts.mk 2 3 true] Sample.courier in
  sumZ (List.map rowTotal (orderProductRows (Some (products s)) s)) = 90 /\
  cartTotal s = 90 + 10.
Proof.
  pose proof (payment_table_matches_total
                (Sample.cart [Sample.soldOut; Sample.onSale]
                   [IProducts.mk 1 2 true; IProducts.mk 2 3 true]
                   Sample.courier)
                (Some [Sample.soldOut; Sample.onSale]) (Some Sample.courier)
                (or_intror eq_refl) (or_intror eq_refl)) as [H1 H2].
  split; [exact H1|exact H2].
Defined.

(** ** The order and the total *)

Lemma productsInOrder_lines (cart : list IProducts.t)
    (combined : list IProductsEntity.t) (d : option IProductsEntity.t) :
  productsInOrder cart combined d
  = List.map toOrderLine (List.filter (qualifies combined) cart)
    ++ (if JS.truthy (JS.chain IProductsEntity.id d)
        then [OrderLine.mk
                (JS.nullish_num (JS.chain IProductsEntity.id d) 0) 1 true]
        else []).
Proof.
  unfold productsInOrder. rewrite filter_orderable.
  destruct (JS.some IProducts.selected cart) eqn:Hsome; simpl.
  - destruct (JS.truthy _); rewrite ?app_nil_r; reflexivity.
  - destruct d as [e|]; simpl.
    + destruct (JS.truthy _); rewrite ?app_nil_r; reflexivity.
    + rewrite (filter_qualifies_unselected _ _ Hsome). reflexivity.
Qed.

Lemma order_lines_sum (ps : list IProductsEntity.t) (l : list IProducts.t) :
  sumZ (List.map (orderLineTotal ps) (productsInOrder l ps None))
  = sumZ (List.map (contribution ps) l).
Proof.
  rewrite productsInOrder_lines. simpl. rewrite app_nil_r.
  rewrite <- sum_contribution.
  induction l as [|a l IH]; simpl; [reflexivity|].
  destruct (qualifies ps a); simpl; [|exact IH].
  unfold orderLineTotal at 1, lineAmount at 1. simpl. lia.
Qed.

(** The order holds what the subtotal charges.  Assembled from the slice's
    snapshots and without a delivery, the order lines, each priced at the
    unit price of its product, add up to the subtotal; every line of an
    order is selected, and an order has at most one line more than the
    cart. *)
Theorem order_matches_total (s : InitialStateType) :
  sumZ (List.map (orderLineTotal (products s))
          (productsInOrder (productsData s) (products s) None))
  = selectCartTotal s /\
  (forall d,
     Forall (fun ol => OrderLine.selected ol = true)
       (productsInOrder (productsData s) (products s) d) /\
     (length (productsInOrder (productsData s) (products s) d)
      <= S (length (productsData s)))%nat).
Proof.
  split.
  - rewrite order_lines_sum, selectCartTotal_contributions. reflexivity.
  - intros d. rewrite productsInOrder_lines. split.
    + apply Forall_app. split.
      * induction (productsData s) as [|a l IH]; simpl; [constructor|].
        destruct (qualifies (products s) a) eqn:Hq; simpl; [|exact IH].
        constructor; [|exact IH].
        unfold qualifies in Hq. apply andb_true_iff in Hq. apply Hq.
      * destruct (JS.truthy _); repeat constructor.
    + rewrite length_app, List.length_map.
      pose proof (List.filter_length_le (qualifies (products s))
                    (productsData s)).
      destruct (JS.truthy _); simpl; lia.
Qed.

(** The payment page creates an order exactly when some cart line is
    selected and in stock, or the delivery product has an id.  A cart whose
    selected lines are all sold out, without delivery, creates none. *)
Theorem orderCreated_iff (cart : list IProducts.t)
    (combined : list IProductsEntity.t) (d : option IProductsEntity.t) :
  orderCreated (productsInOrder cart combined d)
  = existsb (qualifies combined) cart
    || JS.truthy (JS.chain IProductsEntity.id d).
Proof.
  rewrite productsInOrder_lines. unfold orderCreated.
  rewrite length_app, List.length_map.
  assert (Hf : (0 <? Z.of_nat (length (List.filter (qualifies combined) cart)))
               = existsb (qualifies combined) cart).
  { induction cart as [|a l IH]; simpl; [reflexivity|].
    destruct (qualifies combined a); simpl; [|exact IH].
    apply Z.ltb_lt. lia. }
  rewrite <- Hf. rewrite Z.gtb_ltb.
  destruct (JS.truthy _); simpl.
  - rewrite orb_true_r. apply Z.ltb_lt. lia.
  - rewrite orb_false_r. f_equal. lia.
Qed.

(** Once the payment page has synchronised the fetched products into the
    slice, the list it assembles the order from is the slice's list of
    snapshots.  The order it assembles, from the cart lines, that list and
    the slice's delivery, is then: the product lines, which priced at their
    unit prices add up to the subtotal shown, followed by the delivery line
    [{productId: delivery.id, quantity: 1, selected: true}] when the
    delivery has an id that is defined and not 0, and by nothing otherwise.
    The synchronisation touches neither the cart lines nor the delivery. *)
Theorem payment_page_order_matches_total
    (fetched : option (list IProductsEntity.t)) (s : InitialStateType) :
  let s' := syncProducts fetched s in
  let combined := combinedProducts fetched (selectCartItems s') in
  let productLines :=
    List.map toOrderLine
      (List.filter (qualifies combined) (selectCartData s')) in
  let deliveryLines :=
    match IProductsEntity.id (delivery s') with
    | Some i => if i =? 0 then [] else [OrderLine.mk i 1 true]
    | None => []
    end in
  combined = products s' /\
  productsInOrder (selectCartData s') combined (Some (delivery s'))
  = productLines ++ deliveryLines /\
  sumZ (List.map (orderLineTotal combined) productLines) = selectCartTotal s' /\
  productsData s' = productsData s /\
  delivery s' = delivery s.
Proof.
  cbv zeta.
  assert (Hc : combinedProducts fetched
                 (selectCartItems (syncProducts fetched s))
               = products (syncProducts fetched s))
    by (destruct fetched as [[|p ps]|]; reflexivity).
  rewrite Hc. split; [reflexivity|]. split; [|split].
  - rewrite productsInOrder_lines. f_equal. unfold JS.truthy. simpl.
    destruct (IProductsEntity.id (delivery (syncProducts fetched s)))
      as [i|]; simpl; [destruct (i =? 0)|]; reflexivity.
  - pose proof (order_lines_sum (products (syncProducts fetched s))
                  (selectCartData (syncProducts fetched s))) as Hsum.
    rewrite productsInOrder_lines in Hsum. simpl in Hsum.
    rewrite app_nil_r in Hsum. rewrite Hsum.
    unfold selectCartData. rewrite selectCartTotal_contributions.
    reflexivity.
  - destruct fetched; split; reflexivity.
Qed.

(** ** The payment methods shown *)

(** Which accounts the payment page offers.  Without a whitelist, or with an
    empty one, every fetched account; otherwise exactly the fetched accounts
    whose identifier is on the whitelist, so a whitelist that names no
    fetched account offers nothing.  Before the accounts are fetched nothing
    is offered. *)
Theorem whitelistMethods_spec (data : list Account.t)
    (paymentMethods : option (list string)) :
  whitelistMethods None paymentMethods = [] /\
  (paymentMethods = None \/ paymentMethods = Some [] ->
   whitelistMethods (Some data) paymentMethods = data) /\
  (forall whitelist, paymentMethods = Some whitelist -> whitelist <> [] ->
     (forall method,
        In method (whitelistMethods (Some data) paymentMethods) <->
        In method data /\ In (Account.identifier method) whitelist) /\
     ((forall method, In method data ->
         ~ In (Account.identifier method) whitelist) ->
      whitelistMethods (Some data) paymentMethods = [])).
Proof.
  split; [reflexivity|]. split.
  - intros [-> | ->]; reflexivity.
  - intros whitelist -> Hne.
    assert (Hsome : forall method,
              JS.some (fun w => String.eqb (Account.identifier method) w)
                whitelist = true
              <-> In (Account.identifier method) whitelist).
    { intros method. unfold JS.some. rewrite List.existsb_exists. split.
      - intros (w & Hin & Heq). apply String.eqb_eq in Heq. congruence.
      - intros Hin. exists (Account.identifier method).
        split; [exact Hin|apply String.eqb_refl]. }
    destruct whitelist as [|w ws]; [contradiction|].
    unfold whitelistMethods. split.
    + intros method. rewrite List.filter_In, Hsome. reflexivity.
    + intros Hnone. induction data as [|a l IH]; [reflexivity|].
      cbn [List.filter].
      destruct (JS.some _ (w :: ws)) eqn:Ha.
      * exfalso. apply (Hnone a); [left; reflexivity|]. apply Hsome, Ha.
      * apply IH. intros method Hin. apply Hnone. right. exact Hin.
Qed.

(** * Further properties of the interval filter *)

Lemma startOfDay_bounds (tz t : Z) :
  Calendar.startOfDay tz t <= t <= Calendar.endOfDay tz t /\
  Calendar.endOfDay tz t - Calendar.startOfDay tz t = Calendar.msPerDay - 1.
Proof.
  pose proof (startOfDay_local_midnight tz t) as [H _].
  unfold Calendar.endOfDay. lia.
Qed.

(** At a fixed offset [startOf('day')] is idempotent, and every instant of
    a local day has the same start of day. *)
Lemma startOfDay_same_day (tz t u : Z) :
  Calendar.startOfDay tz t <= u <= Calendar.endOfDay tz t ->
  Calendar.startOfDay tz u = Calendar.startOfDay tz t.
Proof.
  unfold Calendar.endOfDay, Calendar.startOfDay, Calendar.msPerDay,
    Calendar.msPerMinute.
  set (lt := t + tz * 60000). set (lu := u + tz * 60000).
  intros H.
  assert (Hq : lu / 86400000 = lt / 86400000); [|rewrite Hq; reflexivity].
  symmetry. apply (Z.div_unique_pos lu 86400000 (lt / 86400000)
                     (lu - lt / 86400000 * 86400000)); unfold lu; lia.
Qed.

(** In a runtime whose zone keeps a fixed offset [tz] (no daylight saving),
    the filter depends on the target only through its local calendar day:
    any two instants of the same local day, such as the local midnight the
    calendar hands over and noon of that day, select the same intervals. *)
Theorem filterIntervalsByDate_same_day (tz : Z)
    (intervals : option (list (Z * Z))) (t u : Z) :
  Calendar.startOfDay tz t <= u <= Calendar.endOfDay tz t ->
  Calendar.filterIntervalsByDate tz intervals u
  = Calendar.filterIntervalsByDate tz intervals t.
Proof.
  intros H. unfold Calendar.filterIntervalsByDate, Calendar.endOfDay.
  rewrite (startOfDay_same_day tz t u H). reflexivity.
Qed.

Lemma filterIntervalsByDate_same_day_witness :
  Calendar.filterIntervalsByDate 120 (Some Sample.overnight)
    (Calendar.iso 2024 1 2 12 0 0 120)
  = Calendar.filterIntervalsByDate 120 (Some Sample.overnight)
      (Calendar.iso 2024 1 2 0 0 0 120).
Proof.
  apply filterIntervalsByDate_same_day. vm_compute.
  split; intros H; discriminate H.
Defined.

(** In a runtime whose zone keeps a fixed offset [tz] (no daylight saving),
    whatever the offset is, the filter keeps an interval that contains the
    target instant (unless the interval starts on the very last millisecond
    of the day), and it never returns an interval that ended a full day or
    more before the target or starts a full day or more after it.  (A day of
    25 hours in a zone with daylight saving escapes the second bound; such
    zones are outside the model.) *)
Theorem filterIntervalsByDate_near_target (tz : Z) (l : list (Z * Z))
    (t start end_ : Z) :
  In (start, end_) l ->
  (start <= t < end_ -> start <> Calendar.endOfDay tz t ->
   In (start, end_) (Calendar.filterIntervalsByDate tz (Some l) t)) /\
  (In (start, end_) (Calendar.filterIntervalsByDate tz (Some l) t) ->
   t - Calendar.msPerDay < end_ /\ start < t + Calendar.msPerDay).
Proof.
  intros Hin.
  pose proof (startOfDay_bounds tz t) as [Hb He].
  split.
  - intros Ht Hne. apply filterIntervalsByDate_overlap. split; [exact Hin|].
    lia.
  - intros H. apply filterIntervalsByDate_overlap in H. lia.
Qed.

Lemma filterIntervalsByDate_near_target_witness :
  In (Calendar.iso 2024 1 1 18 0 0 0, Calendar.iso 2024 1 1 20 0 0 0)
    (Calendar.filterIntervalsByDate 120
       (Some [(Calendar.iso 2024 1 1 18 0 0 0,
               Calendar.iso 2024 1 1 20 0 0 0)])
       Sample.targetDate).
Proof.
  apply (filterIntervalsByDate_near_target 120
           [(Calendar.iso 2024 1 1 18 0 0 0, Calendar.iso 2024 1 1 20 0 0 0)]
           Sample.targetDate).
  - left. reflexivity.
  - vm_compute. split; [intros H; discriminate H|reflexivity].
  - vm_compute. intros H; discriminate H.
Defined.

(** * Deselecting and the subtotal *)

Lemma deselect_absent (pid : Z) (l : list IProducts.t) :
  ~ In pid (ids l) -> Lines.deselectProduct pid l = l.
Proof.
  unfold Lines.deselectProduct, ids.
  induction l as [|a l IH]; simpl; intros Hn; [reflexivity|].
  destruct (Lines.has_id pid a) eqn:Ha.
  - exfalso. apply Hn. left. unfold Lines.has_id in Ha.
    apply Z.eqb_eq in Ha. exact Ha.
  - f_equal. apply IH. tauto.
Qed.

Lemma deselect_as_insert (pid : Z) (l : list IProducts.t) (i : nat)
    (old : IProducts.t) :
  List.NoDup (ids l) ->
  JS.findIndex (Lines.has_id pid) l = Some i -> l !! i = Some old ->
  Lines.deselectProduct pid l = <[i := toggled old]> l.
Proof.
  revert i. induction l as [|a l IH]; intros i Hnd; simpl; [discriminate|].
  inversion Hnd as [|? ? Hnotin Hnd']; subst.
  destruct (Lines.has_id pid a) eqn:Ha.
  - intros [= <-] [= <-]. simpl. f_equal.
    apply deselect_absent. unfold Lines.has_id in Ha.
    apply Z.eqb_eq in Ha. congruence.
  - destruct (JS.findIndex (Lines.has_id pid) l) as [j|] eqn:Hj; simpl;
      [|discriminate].
    intros [= <-] Hl. simpl. f_equal. apply IH; auto.
Qed.

(** In a cart with one line per product, toggling a product changes the
    subtotal by that line alone: a selected line gives up its share, and a
    deselected line of an in-stock product adds unit price times
    quantity. *)
Theorem selectCartTotal_after_deselect (s : InitialStateType) (pid : Z)
    (old : IProducts.t) :
  List.NoDup (ids (productsData s)) ->
  findLine pid (productsData s) = Some old ->
  let ps := products s in
  selectCartTotal (deselectProduct pid s)
  = selectCartTotal s - contribution ps old + contribution ps (toggled old)
  /\
  (IProducts.selected old = true ->
   selectCartTotal (deselectProduct pid s)
   = selectCartTotal s - contribution ps old) /\
  (IProducts.selected old = false ->
   selectCartTotal (deselectProduct pid s)
   = selectCartTotal s
     + (if isInStock (findProduct pid ps)
        then unitPrice (findProduct pid ps) * IProducts.quantity old
        else 0)).
Proof.
  intros Hnd Hfind. cbv zeta.
  pose proof (findLine_cases pid (productsData s)) as H.
  rewrite Hfind in H. destruct H as (i & Hi & Hl).
  destruct (found_line _ _ _ Hi) as (old' & Hl' & _ & Hid & _).
  assert (old' = old) by congruence. subst old'.
  assert (Hgen : selectCartTotal (deselectProduct pid s)
                 = selectCartTotal s - contribution (products s) old
                   + contribution (products s) (toggled old)).
  { rewrite !selectCartTotal_contributions. unfold deselectProduct.
    cbn [productsData products set_productsData].
    rewrite (deselect_as_insert _ _ _ _ Hnd Hi Hl).
    apply sum_insert. exact Hl. }
  split; [exact Hgen|]. split; intros Hsel; rewrite Hgen.
  - unfold contribution at 2, qualifies, toggled. simpl. rewrite Hsel.
    simpl. lia.
  - unfold contribution, qualifies, lineAmount, toggled. simpl.
    rewrite Hsel, Hid. simpl. lia.
Qed.

Lemma selectCartTotal_after_deselect_witness :
  let s :=
    Sample.cart [Sample.soldOut; Sample.onSale]
      [IProducts.mk 1 2 true; IProducts.mk 2 3 true] Sample.courier in
  selectCartTotal (deselectProduct 2 s) = selectCartTotal s - 90.
Proof.
  apply (selectCartTotal_after_deselect
           (Sample.cart [Sample.soldOut; Sample.onSale]
              [IProducts.mk 1 2 true; IProducts.mk 2 3 true] Sample.courier)
           2 (IProducts.mk 2 3 true)).
  - repeat constructor; simpl; intuition lia.
  - reflexivity.
  - reflexivity.
Defined.
